(** * Tutorial scripts of loco-mujoco: a shallow embedding

  The repository is a collection of stand-alone Python scripts that drive an
  external simulation framework.  This development embeds the helpers, the
  controller classes and the error-handling skeletons of those scripts and
  proves (or refutes) what the specification says about them.

  Conventions.
  - A Python [str] is a list of Unicode code points ([pystr]); literals are
    written as UTF-8 text and decoded by [u].
  - Python floats that are only added, compared and multiplied are modelled
    as exact rationals ([Q]); no property below depends on rounding.
  - The external framework is an oracle: a script of outcomes, one per
    external call, consumed in order ([Eff.world]). *)

From Stdlib Require Import ZArith NArith QArith Qminmax List String Ascii Lia Bool.
From Stdlib Require Import DecimalString Lqa Qabs.
From stdpp Require Import base strings gmap list.
#[local] Set Warnings "-register-all".

Import ListNotations.
Open Scope string_scope.
Open Scope list_scope.

(* ===================================================================== *)
(** * Python values                                                       *)
(* ===================================================================== *)

Module Py.

(** A Python string: its code points. *)
Definition pystr := list N.

(** UTF-8 decoding of a literal (well-formed input only). *)
Fixpoint utf8_decode (bs : list N) : pystr :=
  match bs with
  | [] => []
  | b0 :: r0 =>
      if (b0 <? 0x80)%N then b0 :: utf8_decode r0
      else
        match r0 with
        | [] => []
        | b1 :: r1 =>
            if (b0 <? 0xE0)%N
            then ((b0 - 0xC0) * 64 + (b1 - 0x80))%N :: utf8_decode r1
            else
              match r1 with
              | [] => []
              | b2 :: r2 =>
                  if (b0 <? 0xF0)%N
                  then ((b0 - 0xE0) * 4096 + (b1 - 0x80) * 64
                        + (b2 - 0x80))%N :: utf8_decode r2
                  else
                    match r2 with
                    | [] => []
                    | b3 :: r3 =>
                        ((b0 - 0xF0) * 262144 + (b1 - 0x80) * 4096
                         + (b2 - 0x80) * 64 + (b3 - 0x80))%N
                          :: utf8_decode r3
                    end
              end
        end
  end.

(** [u "text"] is the Python literal ["text"]. *)
Definition u (s : string) : pystr :=
  utf8_decode (map N_of_ascii (list_ascii_of_string s)).

(** The newline that [print] appends. *)
Definition nl : pystr := [10%N].

(** [str(n)] for a non-negative integer. *)
Definition str_of_nat (n : nat) : pystr :=
  u (NilZero.string_of_uint (Nat.to_uint n)).

(** [s * n] *)
Fixpoint str_repeat (s : pystr) (n : nat) : pystr :=
  match n with
  | O => []
  | S k => s ++ str_repeat s k
  end.

Definition is_lower (c : N) : bool := ((97 <=? c) && (c <=? 122))%N.
Definition is_upper (c : N) : bool := ((65 <=? c) && (c <=? 90))%N.
Definition to_upper (c : N) : N := if is_lower c then (c - 32)%N else c.
Definition to_lower (c : N) : N := if is_upper c then (c + 32)%N else c.

(** [s.upper()], on the ASCII letters (the scripts only apply it to the
    ASCII dataset names they hard-code). *)
Definition upper (s : pystr) : pystr := map to_upper s.

(** [s.title()], on the ASCII letters: a letter that follows a non-letter
    is capitalised, every other letter is lowered. *)
Fixpoint title_from (prev_cased : bool) (s : pystr) : pystr :=
  match s with
  | [] => []
  | c :: r =>
      let cased := is_lower c || is_upper c in
      (if prev_cased then to_lower c else to_upper c) :: title_from cased r
  end.
Definition title (s : pystr) : pystr := title_from false s.

(** [s[:n]] for [n >= 0]. *)
Definition slice_to (n : nat) (s : pystr) : pystr := firstn n s.

Fixpoint starts_with (p s : pystr) : bool :=
  match p, s with
  | [], _ => true
  | _ :: _, [] => false
  | a :: p', b :: s' => (a =? b)%N && starts_with p' s'
  end.

(** [needle in hay] for two strings. *)
Fixpoint contains (needle hay : pystr) : bool :=
  starts_with needle hay
  || match hay with
     | [] => false
     | _ :: hay' => contains needle hay'
     end.

(** The values that cross the boundary with the framework. *)
Inductive value :=
| VNone
| VBool (b : bool)
| VInt (z : Z)
| VStr (s : pystr)
| VTuple (items : list value)
| VDict (entries : list (value * value))
| VObj (attrs : list (pystr * value)).

(** An exception instance: its class name, whether the class derives from
    [Exception] (KeyboardInterrupt, SystemExit and GeneratorExit derive
    from BaseException only), and [str(e)]. *)
Record exn := mk_exn {
  exn_class : pystr;
  exn_is_Exception : bool;
  exn_str : pystr
}.

Definition IndexError (msg : pystr) : exn := mk_exn (u "IndexError") true msg.
Definition TypeError (msg : pystr) : exn := mk_exn (u "TypeError") true msg.
Definition ValueError (msg : pystr) : exn := mk_exn (u "ValueError") true msg.
Definition KeyError (msg : pystr) : exn := mk_exn (u "KeyError") true msg.
Definition AttributeError (msg : pystr) : exn :=
  mk_exn (u "AttributeError") true msg.
Definition RuntimeError (msg : pystr) : exn :=
  mk_exn (u "RuntimeError") true msg.

(** The result of evaluating an expression that may raise. *)
Inductive res (A : Type) :=
| Ok (a : A)
| Raise (e : exn).
Arguments Ok {A} a.
Arguments Raise {A} e.

Fixpoint assoc {A} (k : pystr) (l : list (pystr * A)) : option A :=
  match l with
  | [] => None
  | (k', v) :: l' => if decide (k = k') then Some v else assoc k l'
  end.

(** [getattr(v, name)] for the attributes an instance carries; the
    built-in types have none of the attribute names the scripts probe. *)
Definition getattr (v : value) (name : pystr) : option value :=
  match v with
  | VObj attrs => assoc name attrs
  | _ => None
  end.

Definition hasattr (v : value) (name : pystr) : bool :=
  match getattr v name with Some _ => true | None => false end.

(** [v[i]] for a non-negative constant index. *)
Definition getitem (v : value) (i : nat) : res value :=
  match v with
  | VTuple items =>
      match nth_error items i with
      | Some x => Ok x
      | None => Raise (IndexError (u "tuple index out of range"))
      end
  | VStr s =>
      match nth_error s i with
      | Some c => Ok (VStr [c])
      | None => Raise (IndexError (u "string index out of range"))
      end
  | VDict entries =>
      match List.find (fun kv => match fst kv with
                                 | VInt z => (z =? Z.of_nat i)%Z
                                 | _ => false
                                 end) entries with
      | Some kv => Ok (snd kv)
      | None => Raise (KeyError (str_of_nat i))
      end
  | _ => Raise (TypeError (u "object is not subscriptable"))
  end.

#[global] Instance res_bind : MBind res := fun A B k m =>
  match m with
  | Ok a => k a
  | Raise e => Raise e
  end.

(** [v.name] *)
Definition attr (v : value) (name : pystr) : res value :=
  match getattr v name with
  | Some x => Ok x
  | None => Raise (AttributeError (u "object has no attribute " ++ name))
  end.

(** The error of [a, b, c = t] when [len(t)] is not the number of targets. *)
Definition unpack_error (expected got : nat) : exn :=
  if (got <? expected)%nat
  then ValueError (u "not enough values to unpack (expected "
                   ++ str_of_nat expected ++ u ", got " ++ str_of_nat got
                   ++ u ")")
  else ValueError (u "too many values to unpack (expected "
                   ++ str_of_nat expected ++ u ")").

Definition unpack3 (t : list value) : res (value * value * value) :=
  match t with
  | [a; b; c] => Ok (a, b, c)
  | _ => Raise (unpack_error 3 (length t))
  end.

Definition unpack4 (t : list value) : res (value * value * value * value) :=
  match t with
  | [a; b; c; d] => Ok (a, b, c, d)
  | _ => Raise (unpack_error 4 (length t))
  end.

Definition unpack5 (t : list value)
  : res (value * value * value * value * value) :=
  match t with
  | [a; b; c; d; e] => Ok (a, b, c, d, e)
  | _ => Raise (unpack_error 5 (length t))
  end.

End Py.
Import Py.


(* ===================================================================== *)
(** * The scripts as entry points                                          *)
(* ===================================================================== *)

(** What each of the 48 source files does at module level: which function
    its [if __name__ == "__main__":] block runs, whether it reads the
    command line, and every [input(...)] call with the use made of the
    answer.  Paths are relative to the repository root. *)
Module Scripts.


(** What a script does with the line read by [input]. *)
Inductive answer_use :=
| Confirm (accepted : list string)
| PressEnter
| Command
| MenuChoice.

Record prompt := mk_prompt {
  prompt_line : nat;
  prompt_text : string;
  prompt_use : answer_use
}.








(** A confirmation of any kind. *)
Definition is_confirmation (p : prompt) : bool :=
  match prompt_use p with
  | Confirm _ => true
  | _ => false
  end.






End Scripts.

(* ===================================================================== *)
(** * get_action_size                                                      *)
(* ===================================================================== *)

(** [get_action_size(env)], the same text in lesson_1_5_interactive_control,
    lesson_1_6_motion_analysis and lesson_1_8_test_utilities. *)
Module ActionSize.

Definition get_action_size (env : value) : res value :=
  (if hasattr env (u "action_size") then
     attr env (u "action_size")
   else
     has_shape ←
       (if hasattr env (u "action_space")
        then (space ← attr env (u "action_space");
              Ok (hasattr space (u "shape")))
        else Ok false);
     if has_shape : bool then
       space ← attr env (u "action_space");
       shape ← attr space (u "shape");
       getitem shape 0
     else
       Ok (VInt 23)).

End ActionSize.

(* ===================================================================== *)
(** * Unpacking the result of env.step                                     *)
(* ===================================================================== *)

Module StepUnpack.

(** The names bound after the unpacking. *)
Record step_vars := mk_step_vars {
  sv_state : value;
  sv_reward : value;
  sv_terminated : value;
  sv_truncated : value;
  sv_info : value
}.

(** lesson_1_8_test_utilities.test_environment_stepping, lines 271-280. *)
Definition unpack_step (step_result : list value) : res step_vars :=
  (if (length step_result =? 5)%nat then
     '(next_state, reward, terminated, truncated, info)
        ← unpack5 step_result;
     Ok (mk_step_vars next_state reward terminated truncated info)
   else if (length step_result =? 4)%nat then
     '(next_state, reward, terminated, info) ← unpack4 step_result;
     Ok (mk_step_vars next_state reward terminated (VBool false) info)
   else
     '(next_state, reward, terminated) ← unpack3 (firstn 3 step_result);
     Ok (mk_step_vars next_state reward terminated (VBool false) (VDict []))).

(** lesson_1_1_quick_test.test_basic_movement, lines 107-112: two branches
    only, and [info] is always taken from the tuple. *)
Definition unpack_step_quick_test (result : list value) : res step_vars :=
  (if (length result =? 5)%nat then
     '(obs, reward, done, truncated, info) ← unpack5 result;
     Ok (mk_step_vars obs reward done truncated info)
   else
     '(obs, reward, done, info) ← unpack4 result;
     Ok (mk_step_vars obs reward done (VBool false) info)).

(** archive/debug_test.test_basic_rl_environment, lines 38-49: lengths 4
    and 3 are unpacked, any other length is only reported (no name is
    bound: [None]). *)
Definition unpack_step_debug (step_result : list value)
  : res (option (value * value * value * option value)) :=
  (if (length step_result =? 4)%nat then
     '(obs, reward, done, info) ← unpack4 step_result;
     Ok (Some (obs, reward, done, Some info))
   else if (length step_result =? 3)%nat then
     '(obs, reward, done) ← unpack3 step_result;
     Ok (Some (obs, reward, done, None))
   else
     Ok None).

End StepUnpack.

(* ===================================================================== *)
(** * Effects: standard output and the external framework                  *)
(* ===================================================================== *)

Module Eff.

(** The framework calls the embedded scripts make. *)
Inductive ext_call :=
| Make (robot : pystr) (default_dataset_conf : list pystr)
       (n_substeps : option Z)
| GetShape (space : pystr)
| CreateDataset
| PlayTrajectory (n_episodes n_steps_per_episode : Z) (render : bool).

(** What one external call does: it returns (the text that an f-string
    would show for the returned object) or it raises. *)
Inductive outcome :=
| Returns (shown : pystr)
| Raises (e : exn).

(** The outcomes of the external calls, in the order the calls are made.
    A call made after the script is exhausted returns. *)
Definition world := list outcome.

Inductive event :=
| Out (text : pystr)
| Ext (c : ext_call)
| Sleep (seconds : Z)
| Narrate (function : string).

(** A computation: it consumes outcomes, emits events and returns or
    raises. *)
Definition M (A : Type) : Type := world -> res A * world * list event.

#[global] Instance M_ret : MRet M := fun A a w => (Ok a, w, []).
#[global] Instance M_bind : MBind M := fun A B k m w =>
  match m w with
  | (Ok a, w1, t1) =>
      match k a w1 with
      | (r, w2, t2) => (r, w2, t1 ++ t2)
      end
  | (Raise e, w1, t1) => (Raise e, w1, t1)
  end.

Definition call (c : ext_call) : M pystr := fun w =>
  match w with
  | [] => (Ok [], [], [Ext c])
  | Returns shown :: w' => (Ok shown, w', [Ext c])
  | Raises e :: w' => (Raise e, w', [Ext c])
  end.

(** [print(s)] and [print(s, end=e)]. *)
Definition print_end (s e : pystr) : M unit := fun w =>
  (Ok tt, w, [Out (s ++ e)]).
Definition print (s : pystr) : M unit := print_end s nl.

(** [time.sleep(seconds)]: pacing only. *)
Definition sleep (seconds : Z) : M unit := fun w => (Ok tt, w, [Sleep seconds]).

(** A function of the script that only prints fixed text. *)
Definition narrate (function : string) : M unit := fun w =>
  (Ok tt, w, [Narrate function]).

(** [try: body except Exception as e: handler(e)].  An exception whose
    class does not derive from [Exception] is not caught. *)
Definition try_except {A} (body : M A) (handler : exn -> M A) : M A := fun w =>
  match body w with
  | (Ok a, w1, t1) => (Ok a, w1, t1)
  | (Raise e, w1, t1) =>
      if exn_is_Exception e then
        match handler e w1 with
        | (r, w2, t2) => (r, w2, t1 ++ t2)
        end
      else (Raise e, w1, t1)
  end.

Definition result_of {A} (x : res A * world * list event) : res A := x.1.1.
Definition rest_of {A} (x : res A * world * list event) : world := x.1.2.
Definition trace_of {A} (x : res A * world * list event) : list event := x.2.

(** The text written to standard output. *)
Fixpoint stdout (t : list event) : pystr :=
  match t with
  | [] => []
  | Out text :: t' => text ++ stdout t'
  | _ :: t' => stdout t'
  end.

(** The external calls made. *)
Fixpoint calls (t : list event) : list ext_call :=
  match t with
  | [] => []
  | Ext c :: t' => c :: calls t'
  | _ :: t' => calls t'
  end.

(** Every exception the framework raises derives from [Exception]. *)
Definition raises_only_Exception (w : world) : Prop :=
  Forall (fun o => match o with
                   | Returns _ => True
                   | Raises e => exn_is_Exception e = true
                   end) w.

(** [m], run against a framework that raises only [Exception]s, leaves
    such a framework, propagates only [Exception]s and makes only calls
    that satisfy [P]. *)
Definition sound {A} (P : ext_call -> Prop) (m : M A) : Prop :=
  forall w, raises_only_Exception w ->
    raises_only_Exception (rest_of (m w))
    /\ (forall e, result_of (m w) = Raise e -> exn_is_Exception e = true)
    /\ Forall P (calls (trace_of (m w))).

(** [m] moreover returns: nothing propagates. *)
Definition returns {A} (P : ext_call -> Prop) (m : M A) : Prop :=
  sound P m
  /\ forall w, raises_only_Exception w -> exists a, result_of (m w) = Ok a.

End Eff.
Import Eff.

(** Unfold the monad's operations and reduce the matches they expose. *)
Ltac unfold_M :=
  cbv beta iota zeta
      delta [try_except print print_end sleep narrate mbind M_bind mret
             M_ret].

(* ===================================================================== *)
(** * The recorders: truncated error messages                              *)
(* ===================================================================== *)

(** archive/g1_extended_dataset_recorder.test_and_record_dataset.  The
    [try] block (environment creation, recording, file lookup) is the
    framework's business and is a parameter; the handler is the script's. *)
Module ExtendedRecorder.
Section test_and_record_dataset.

Variable dataset_name : pystr.
Variable try_block : M value.

Definition on_error (e : exn) : M value :=
  let error_msg := exn_str e in
  (if contains (u "404") error_msg || contains (u "Entry Not Found") error_msg
   then print (u " ❌ Not available")
   else print (u " ❌ Error: " ++ slice_to 50 error_msg ++ u "..."));;
  mret (VTuple [VBool false; VNone]).

Definition test_and_record_dataset : M value :=
  print_end (nl ++ u "🔍 Testing " ++ dataset_name ++ u "...") [];;
  try_except try_block on_error.

End test_and_record_dataset.
End ExtendedRecorder.

(** archive/g1_dance_recorder.record_dance_dataset; the [finally] clause
    only deletes the local name [env]. *)
Module DanceRecorder.
Section record_dance_dataset.

Variable dataset_name : pystr.
Variable try_block : M value.

Definition on_error (e : exn) : M value :=
  print (u "   ❌ Recording failed: " ++ slice_to 100 (exn_str e) ++ u "...");;
  mret VNone.

Definition record_dance_dataset : M value :=
  print (nl ++ u "🎬 Recording dance: " ++ dataset_name);;
  try_except try_block on_error.

End record_dance_dataset.
End DanceRecorder.

(* ===================================================================== *)
(** * archive/g1_01_basic_datasets.py                                      *)
(* ===================================================================== *)

Module BasicDatasetsArchive.

Definition available_datasets : list pystr :=
  map u ["walk"; "squat"; "stand"; "stepinplace"; "walk_fast"; "walk_slow";
         "jump"].

(** [for i, dataset in enumerate(l, i): print(f"  {i}. {dataset}")] *)
Fixpoint print_numbered (i : nat) (l : list pystr) : M unit :=
  match l with
  | [] => mret tt
  | dataset :: l' =>
      print (u "  " ++ str_of_nat i ++ u ". " ++ dataset);;
      print_numbered (S i) l'
  end.

Definition datasets_to_demo : list pystr := map u ["walk"; "squat"].

(** The body of [for i, dataset_name in enumerate(datasets_to_demo)],
    from index [i] on; [total] is [len(datasets_to_demo)]. *)
Fixpoint demo_loop (i total : nat) (l : list pystr) : M unit :=
  match l with
  | [] => mret tt
  | dataset_name :: l' =>
      print (nl ++ u "🎯 Demo " ++ str_of_nat (i + 1) ++ u "/"
             ++ str_of_nat total ++ u ": " ++ upper dataset_name);;
      print (str_repeat (u "=") 40);;
      single_env ← call (Make (u "UnitreeG1") [dataset_name] (Some 20%Z));
      print (u "   🤖 Now showing G1 performing: " ++ dataset_name);;
      print (u "   ⏱️  Duration: ~30 seconds");;
      print (u "   🎮 Controls: SPACE=pause, ESC=exit, R=restart");;
      _ ← call (PlayTrajectory 3 1000 true);
      (if (i <? total - 1)%nat then
         print (nl ++ u "⏸️  Demo " ++ str_of_nat (i + 1)
                ++ u " completed. Preparing next demo...");;
         sleep 2
       else mret tt);;
      demo_loop (S i) total l'
  end.

(** The outer [try] block. *)
Definition multi_dataset_demo : M unit :=
  print (nl ++ u "🔄 Creating UnitreeG1 environment with multiple datasets...");;
  env ← call (Make (u "UnitreeG1") (map u ["walk"; "squat"]) (Some 20%Z));
  print (u "✅ UnitreeG1 environment created successfully!");;
  action_shape ← call (GetShape (u "action_space"));
  print (u "📊 Action space: " ++ action_shape);;
  observation_shape ← call (GetShape (u "observation_space"));
  print (u "📊 Observation space: " ++ observation_shape);;
  dataset ← call CreateDataset;
  print (u "📊 Dataset created successfully!");;
  print (nl ++ u "🎬 Playing G1 motion capture trajectories...");;
  print (u "   This will show the G1 robot performing human motion patterns");;
  print (u "   Press SPACE to pause/resume, ESC to exit, R to restart");;
  demo_loop 0 (length datasets_to_demo) datasets_to_demo;;
  print (nl ++ u "✅ All G1 motion demos completed!");;
  print (u "💡 Tip: You can run individual datasets by modifying the datasets_to_demo list").

(** The inner [try] block of the handler. *)
Definition fallback_demo : M unit :=
  env ← call (Make (u "UnitreeG1") [u "walk"] None);
  print (u "🚶 Showing G1 walking motion (fallback mode)");;
  print (u "⏱️  Duration: ~15 seconds - watch carefully!");;
  _ ← call (PlayTrajectory 2 500 true);
  print (u "✅ Fallback successful!").

Definition fallback_failed (e2 : exn) : M unit :=
  print (u "❌ Fallback also failed: " ++ exn_str e2).

(** The statements of the outer handler before its own [try]. *)
Definition report_error (e : exn) : M unit :=
  print (u "❌ Error: " ++ exn_str e);;
  print (nl ++ u "💡 Troubleshooting:");;
  print (u "  1. Make sure LocoMuJoCo is properly installed");;
  print (u "  2. Check internet connection for dataset downloads");;
  print (u "  3. Try individual datasets instead of multiple");;
  print (nl ++ u "🔄 Trying fallback with single dataset...").

(** [except Exception as e:] of the outer [try]. *)
Definition on_error (e : exn) : M unit :=
  report_error e;;
  try_except fallback_demo fallback_failed.

(** The statements of main before the [try]. *)
Definition announce : M unit :=
  print (u "🤖 UnitreeG1 Dataset Tutorial 1: Basic Motion Replay");;
  print (str_repeat (u "=") 60);;
  print (u "📋 Available Default Datasets:");;
  print_numbered 1 available_datasets.

Definition main : M unit :=
  announce;;
  try_except multi_dataset_demo on_error.

(** The fallback's environment creation: the only [make] call without
    [n_substeps]. *)
Definition fallback_make : ext_call := Make (u "UnitreeG1") [u "walk"] None.



End BasicDatasetsArchive.

(* ===================================================================== *)
(** * lesson_1_3_basic_datasets.py                                         *)
(* ===================================================================== *)

Module Lesson13.

Record motion := mk_motion {
  name : pystr;
  description : pystr;
  characteristics : pystr;
  use_cases : pystr
}.

Definition motions : list motion := [
  mk_motion (u "walk")
    (u "Natural human walking gait")
    (u "Steady, balanced, efficient forward movement")
    (u "Basic locomotion, navigation, everyday movement");
  mk_motion (u "run")
    (u "Faster locomotion with running gait")
    (u "Higher speed, more dynamic, aerial phases")
    (u "Fast travel, emergency response, athletic performance");
  mk_motion (u "squat")
    (u "Up and down squatting exercise")
    (u "Vertical movement, strength, balance control")
    (u "Exercise routines, sitting/standing, strength training");
  mk_motion (u "balance")
    (u "Maintaining upright standing position")
    (u "Static stability, small adjustments, postural control")
    (u "Standing tasks, waiting, maintaining position")
].

(** [for i, motion in enumerate(l, i): ...] of available_basic_motions. *)
Fixpoint print_motions (i : nat) (l : list motion) : M unit :=
  match l with
  | [] => mret tt
  | m :: l' =>
      print (nl ++ str_of_nat i ++ u ". " ++ upper (name m));;
      print (u "   📝 Description: " ++ description m);;
      print (u "   🎯 Key traits: " ++ characteristics m);;
      print (u "   💼 Applications: " ++ use_cases m);;
      print_motions (S i) l'
  end.

Definition available_basic_motions : M (list pystr) :=
  print (nl ++ u "📋 AVAILABLE BASIC MOTIONS");;
  print (str_repeat (u "=") 40);;
  print_motions 1 motions;;
  mret (map name motions).

(** The [try] block of demonstrate_motion. *)
Definition demonstrate_motion_try (motion_name : pystr) (duration : nat)
  : M bool :=
  print (u "📋 Loading " ++ motion_name ++ u " motion data...");;
  env ← call (Make (u "UnitreeG1") [motion_name] (Some 20%Z));
  print (u "✅ " ++ title motion_name ++ u " data loaded!");;
  print (u "⏱️  Playing " ++ str_of_nat duration ++ u " seconds of "
         ++ motion_name ++ u "...");;
  print (u "👀 Watch the robot's movement pattern");;
  let steps_per_episode := (duration * 30)%nat in
  _ ← call (PlayTrajectory 1 (Z.of_nat steps_per_episode) true);
  print (u "✅ " ++ title motion_name ++ u " demonstration complete!");;
  mret true.

Definition demonstrate_motion_except (motion_name : pystr) (e : exn)
  : M bool :=
  print (u "❌ Failed to demonstrate " ++ motion_name ++ u ": " ++ exn_str e);;
  print (u "💡 " ++ title motion_name ++ u " dataset may not be available");;
  mret false.

Definition demonstrate_motion (motion_name : pystr) (duration : nat)
  : M bool :=
  print (nl ++ u "🎬 DEMONSTRATING: " ++ upper motion_name);;
  print (str_repeat (u "=") 50);;
  try_except (demonstrate_motion_try motion_name duration)
             (demonstrate_motion_except motion_name).

(** The loop of main from index [i] on (enumerate starts at 1);
    [total] is [len(motion_list)].  Returns [successful_demos]. *)
Fixpoint demo_loop (i total : nat) (l : list pystr) (successful_demos : nat)
  : M nat :=
  match l with
  | [] => mret successful_demos
  | motion :: l' =>
      print (nl ++ str_repeat (u "=") 60);;
      print (u "🎭 MOTION " ++ str_of_nat i ++ u "/" ++ str_of_nat total
             ++ u ": " ++ upper motion);;
      print (str_repeat (u "=") 60);;
      ok ← demonstrate_motion motion 12;
      let successful_demos :=
        if ok : bool then (successful_demos + 1)%nat else successful_demos in
      (if (i <? total)%nat then
         print (nl ++ u "⏱️  Preparing next motion...");;
         sleep 2
       else mret tt);;
      demo_loop (S i) total l' successful_demos
  end.

(** The line that reports the count. *)
Definition report_line (successful_demos total : nat) : pystr :=
  u "✅ Successfully demonstrated: " ++ str_of_nat successful_demos ++ u "/"
  ++ str_of_nat total ++ u " motions".

Definition main : M unit :=
  print (u "📚 Lesson 1.3: Basic Datasets");;
  print (str_repeat (u "=") 50);;
  print (u "🎯 Goal: Explore different types of robot motions");;
  print (u "⏱️  Time: ~8 minutes");;
  print (u "🎓 Difficulty: Beginner");;
  narrate "introduce_motion_variety";;
  motion_list ← available_basic_motions;
  narrate "compare_motion_characteristics";;
  print (nl ++ u "🎬 MOTION DEMONSTRATIONS");;
  print (str_repeat (u "=") 50);;
  print (u "We'll now demonstrate each motion type.");;
  print (u "Watch carefully and compare their characteristics!");;
  successful_demos ← demo_loop 1 (length motion_list) motion_list 0;
  narrate "motion_analysis_activity";;
  narrate "explain_dataset_concepts";;
  print (nl ++ u "🎓 LESSON COMPLETE!");;
  print (str_repeat (u "=") 50);;
  print (report_line successful_demos (length motion_list));;
  print (u "✅ You've learned:");;
  print (u "   • Different types of robot motions");;
  print (u "   • How motion datasets work");;
  print (u "   • Motion analysis and comparison");;
  print (u "   • Key concepts in motion transfer");;
  print (u "");;
  print (u "🚀 Ready for Lesson 1.4: LAFAN1 Datasets (Advanced Motions)");;
  print (u "");;
  print (u "🏆 EXPERIMENT IDEAS:");;
  print (u "💡 Try loading multiple motions together:");;
  print (u "   DefaultDatasetConf(['walk', 'run', 'squat'])");;
  print (u "💡 Change n_substeps to make motions smoother/faster");;
  print (u "💡 Pause during motions to study specific poses");;
  print (u "💡 Count how many steps each motion type takes").

(** What demonstrate_motion returns for each motion of [l] in turn, the
    framework answering from [w]; the list stops at a call that raises. *)
Fixpoint demo_results (l : list pystr) (w : world) : list bool :=
  match l with
  | [] => []
  | motion :: l' =>
      match demonstrate_motion motion 12 w with
      | (Ok ok, w', _) => ok :: demo_results l' w'
      | (Raise _, _, _) => []
      end
  end.

(** The [make] call that demonstrate_motion issues for a motion. *)
Definition make_call (motion : pystr) : ext_call :=
  Make (u "UnitreeG1") [motion] (Some 20%Z).

Definition is_make (c : ext_call) : bool :=
  match c with
  | Make _ _ _ => true
  | _ => false
  end.


(** The environments created, in order. *)
Definition makes (t : list event) : list ext_call :=
  List.filter is_make (calls t).

Definition motion_names : list pystr := map u ["walk"; "run"; "squat"; "balance"].

End Lesson13.

(* ===================================================================== *)
(** * Background colour (lesson_1_5_interactive_control.py)                *)
(* ===================================================================== *)

Module Background.

(** The dict literal [colors]. *)
Definition colors : gmap pystr pystr :=
  list_to_map [
    (u "black", u "0 0 0");
    (u "dark_blue", u "0.1 0.1 0.2");
    (u "dark_gray", u "0.2 0.2 0.2");
    (u "white", u "1 1 1");
    (u "default", u "0.2 0.3 0.4")
  ].

Definition MUJOCO_GL_BACKGROUND : pystr := u "MUJOCO_GL_BACKGROUND".

(** [d[k]] *)
Definition item (d : gmap pystr pystr) (k : pystr) : res pystr :=
  match d !! k with
  | Some v => Ok v
  | None => Raise (KeyError k)
  end.

(** [set_background_color(color_name)]: the new [os.environ] and the
    line printed. *)
Definition set_background_color (color_name : pystr)
    (environ : gmap pystr pystr) : res (gmap pystr pystr * pystr) :=
  black ← item colors (u "black");
  let bg_color := default black (colors !! color_name) in
  let environ' := <[MUJOCO_GL_BACKGROUND := bg_color]> environ in
  Ok (environ', u "🎨 Background set to " ++ color_name ++ u " (" ++ bg_color
                ++ u ")" ++ nl).

(** background_color_guide.method_1_environment_variable, line 27. *)
Definition method_1_environment_variable (environ : gmap pystr pystr)
  : gmap pystr pystr :=
  <[MUJOCO_GL_BACKGROUND := u "0 0 0"]> environ.

(** Reading an "R G B" string: three decimal numbers separated by single
    spaces. *)
Definition is_digit (c : N) : bool := ((48 <=? c) && (c <=? 57))%N.

Fixpoint split_on (sep : N) (s : pystr) : list pystr :=
  match s with
  | [] => [[]]
  | c :: s' =>
      if (c =? sep)%N then [] :: split_on sep s'
      else
        match split_on sep s' with
        | [] => [[c]]
        | w :: ws => (c :: w) :: ws
        end
  end.

Fixpoint digits_value (acc : N) (s : pystr) : option N :=
  match s with
  | [] => Some acc
  | c :: s' =>
      if is_digit c then digits_value (acc * 10 + (c - 48)) s' else None
  end.

Definition natural (s : pystr) : option N :=
  match s with
  | [] => None
  | _ => digits_value 0 s
  end.

Definition parse_decimal (s : pystr) : option Q :=
  match split_on 46 s with
  | [int_part] =>
      n ← natural int_part; Some (Z.of_N n # 1)
  | [int_part; frac_part] =>
      n ← natural int_part;
      f ← natural frac_part;
      let scale := (10 ^ N.of_nat (length frac_part))%N in
      Some (Z.of_N (n * scale + f) # N.succ_pos (N.pred scale))
  | _ => None
  end.

Definition parse_rgb (s : pystr) : option (Q * Q * Q) :=
  match split_on 32 s with
  | [r; g; b] =>
      r ← parse_decimal r;
      g ← parse_decimal g;
      b ← parse_decimal b;
      Some (r, g, b)
  | _ => None
  end.

Definition in_unit_range (x : Q) : Prop := (0 <= x)%Q /\ (x <= 1)%Q.

(** An "R G B" string with its three components in the range 0 to 1. *)
Definition rgb_in_range (s : pystr) : Prop :=
  exists r g b, parse_rgb s = Some (r, g, b)
                /\ in_unit_range r /\ in_unit_range g /\ in_unit_range b.

End Background.

(** Decide [rgb_in_range] of a literal by evaluation. *)
Ltac rgb_computed :=
  eexists _, _, _; split; [vm_compute; reflexivity |];
  repeat split; vm_compute; discriminate.

(* ===================================================================== *)
(** * InteractiveController (lesson_1_5_interactive_control.py)            *)
(* ===================================================================== *)

(** Standard output is not part of this model: update_action prints the
    speed and the help text only. *)
Module Controller.

Record t := mk {
  action_size : nat;
  current_action : list Q;
  control_mode : pystr;
  control_speed : Q
}.

(** [__init__] when get_action_size(env) is [n]. *)
Definition init (n : nat) : t :=
  mk n (repeat 0%Q n) (u "individual") (1 # 10).

(** [self.current_action[i] = f(self.current_action[i]); return True] *)
Definition set_joint (st : t) (i : nat) (f : Q -> Q) : t * res bool :=
  match current_action st !! i with
  | Some x =>
      (mk (action_size st) (<[i := f x]> (current_action st))
          (control_mode st) (control_speed st), Ok true)
  | None =>
      (st, Raise (IndexError (u "index " ++ str_of_nat i
                              ++ u " is out of bounds for axis 0 with size "
                              ++ str_of_nat (length (current_action st)))))
  end.

Definition set_speed (st : t) (speed : Q) : t * res bool :=
  (mk (action_size st) (current_action st) (control_mode st) speed, Ok true).

(** [update_action(key)]: the controller afterwards, and the value
    returned or the exception raised. *)
Definition update_action (st : t) (key : pystr) : t * res bool :=
  let speed := control_speed st in
  if decide (key = u "w") then
    set_joint st 0 (fun x => Qmin 1 (x + speed))
  else if decide (key = u "s") then
    set_joint st 0 (fun x => Qmax (-1) (x - speed))
  else if decide (key = u "a") then
    set_joint st 1 (fun x => Qmin 1 (x + speed))
  else if decide (key = u "d") then
    set_joint st 1 (fun x => Qmax (-1) (x - speed))
  else if decide (key = u "q") then
    set_joint st 2 (fun x => Qmin 1 (x + speed))
  else if decide (key = u "e") then
    set_joint st 2 (fun x => Qmax (-1) (x - speed))
  else if decide (key = u "r") then
    if (3 <? length (current_action st))%nat
    then set_joint st 3 (fun x => Qmin 1 (x + speed))
    else (st, Ok false)
  else if decide (key = u "f") then
    if (3 <? length (current_action st))%nat
    then set_joint st 3 (fun x => Qmax (-1) (x - speed))
    else (st, Ok false)
  else if decide (key = u "t") then
    if (4 <? length (current_action st))%nat
    then set_joint st 4 (fun x => Qmin 1 (x + speed))
    else (st, Ok false)
  else if decide (key = u "g") then
    if (4 <? length (current_action st))%nat
    then set_joint st 4 (fun x => Qmax (-1) (x - speed))
    else (st, Ok false)
  else if decide (key = u "+") then
    set_speed st (Qmin (1 # 2) (control_speed st + (2 # 100)))
  else if decide (key = u "-") then
    set_speed st (Qmax (1 # 100) (control_speed st - (2 # 100)))
  else if decide (key = u "0") then
    (mk (action_size st) (repeat 0%Q (length (current_action st)))
        (control_mode st) (control_speed st), Ok true)
  else if decide (key = u "h") then
    (st, Ok true)
  else
    (st, Ok false).

(** A sequence of update_action calls on the same controller. *)
Definition update_actions (st : t) (keys : list pystr) : t :=
  fold_left (fun st key => (update_action st key).1) keys st.

Definition action_in_range (x : Q) : Prop := (-1 <= x)%Q /\ (x <= 1)%Q.

Definition speed_in_range (s : Q) : Prop := (1 # 100 <= s)%Q /\ (s <= 1 # 2)%Q.

(** Every entry of current_action is in [-1, 1] and control_speed is in
    [0.01, 0.5]. *)
Definition bounded (st : t) : Prop :=
  Forall action_in_range (current_action st)
  /\ speed_in_range (control_speed st).

End Controller.

(* ===================================================================== *)
(** * SlowMotionViewer (lesson_1_9_slow_motion_viewer.py)                  *)
(* ===================================================================== *)

(** Standard output is not part of this model: set_speed prints what it
    did. *)
Module SlowMotionViewer.

Record t := mk {
  base_delay : Q;
  speed_multipliers : gmap pystr Q;
  current_speed : pystr
}.

Definition multipliers : gmap pystr Q :=
  list_to_map [
    (u "ultra_slow", 10 # 1);
    (u "very_slow", 5 # 1);
    (u "slow", 2 # 1);
    (u "normal", 1 # 1);
    (u "fast", 1 # 2)
  ]%Q.

Definition speed_names : list pystr :=
  map u ["ultra_slow"; "very_slow"; "slow"; "normal"; "fast"].

(** The default of the [base_delay] parameter, 0.033. *)
Definition default_base_delay : Q := 33 # 1000.

(** [__init__(env, base_delay)] *)
Definition init (base_delay : Q) : t := mk base_delay multipliers (u "normal").

(** [speed_name in self.speed_multipliers] *)
Definition known_speed (st : t) (speed_name : pystr) : bool :=
  bool_decide (is_Some (speed_multipliers st !! speed_name)).

Definition set_speed (st : t) (speed_name : pystr) : t :=
  if known_speed st speed_name
  then mk (base_delay st) (speed_multipliers st) speed_name
  else st.

Definition get_current_delay (st : t) : res Q :=
  match speed_multipliers st !! current_speed st with
  | Some multiplier => Ok (base_delay st * multiplier)%Q
  | None => Raise (KeyError (current_speed st))
  end.

End SlowMotionViewer.

(* ===================================================================== *)
(** * More of lesson_1_9_slow_motion_viewer.py                             *)
(* ===================================================================== *)

Module SlowMotionAnalysis.
Import SlowMotionViewer.

(** Successive [viewer.set_speed(name)] calls. *)
Definition set_speeds (st : t) (speed_names : list pystr) : t :=
  fold_left set_speed speed_names st.

(** [detect_motion_phase(step)] for an integer step. *)
Definition detect_motion_phase (step : Z) : pystr :=
  let cycle_length := 60%Z in
  let phase_position := (inject_Z (step mod cycle_length)
                         / inject_Z cycle_length)%Q in
  if Qlt_le_dec phase_position (25 # 100) then u "Preparation"
  else if Qlt_le_dec phase_position (5 # 10) then u "Execution"
  else if Qlt_le_dec phase_position (75 # 100) then u "Follow-through"
  else u "Recovery".

(** The default of [analysis_points] in play_with_analysis. *)
Definition default_analysis_points (n_steps : Z) : list Z :=
  [n_steps / 4; n_steps / 2; 3 * n_steps / 4]%Z.

(** The points interactive_slow_motion_session passes for a session of
    the given duration. *)
Definition session_analysis_points (duration : Z) : list Z :=
  [duration / 3; 2 * duration / 3]%Z.

(** A viewer as __init__ and set_speed leave it. *)
Definition well_formed (bd : Q) (st : t) : Prop :=
  speed_multipliers st = multipliers /\ base_delay st = bd
  /\ In (current_speed st) speed_names.

(** [range(n_steps)] contains [step]. *)
Definition in_range (n_steps step : Z) : Prop := (0 <= step < n_steps)%Z.

End SlowMotionAnalysis.

(* ===================================================================== *)
(** * The interactive session of lesson_1_5_interactive_control.py         *)
(* ===================================================================== *)

Module ControlSession.
Import Controller.

(** What the body of the [while] loop does after reading a command. *)
Inductive session_step :=
| Quit
| NextPrompt
| Simulate
| Caught (e : exn)
| Propagated (e : exn).

(** The command dispatch of interactive_control_session (lines 301-321):
    [user_input] is the line read, stripped and lowered.  The loop's
    handlers end the session on EOFError and KeyboardInterrupt, and print
    any other exception that derives from Exception and go on. *)
Definition session_command (st : t) (user_input : pystr) : t * session_step :=
  if bool_decide (user_input ∈ map u ["quit"; "exit"; "q"]) then
    (st, Quit)
  else if bool_decide (user_input = u "help")
          || bool_decide (user_input = u "h") then
    (st, NextPrompt)
  else if bool_decide (user_input = u "0")
          || bool_decide (user_input = u "reset") then
    (mk (action_size st) (repeat 0%Q (action_size st)) (control_mode st)
        (control_speed st), Simulate)
  else if bool_decide (user_input ∈ map u ["w"; "s"; "a"; "d"; "q"; "e"; "r";
                                           "f"; "t"; "g"; "+"; "-"]) then
    match update_action st user_input with
    | (st', Ok _) => (st', Simulate)
    | (st', Raise e) =>
        if bool_decide (exn_class e ∈ map u ["EOFError"; "KeyboardInterrupt"])
        then (st', Quit)
        else if exn_is_Exception e then (st', Caught e)
        else (st', Propagated e)
    end
  else if bool_decide (user_input = u "") then
    (st, Simulate)
  else
    (st, NextPrompt).

(** The controller after a sequence of commands (the session ends at the
    first Quit). *)
Fixpoint session (st : t) (inputs : list pystr) : t :=
  match inputs with
  | [] => st
  | user_input :: rest =>
      match session_command st user_input with
      | (st', Quit) => st'
      | (st', Propagated _) => st'
      | (st', _) => session st' rest
      end
  end.


(** Joint 2 is at or below its rest position 0 (or absent). *)
Definition joint2_not_raised (st : t) : Prop :=
  forall x, current_action st !! 2%nat = Some x -> (x <= 0)%Q.

(** The keys update_action reacts to. *)
Definition handled_keys : list pystr :=
  map u ["w"; "s"; "a"; "d"; "q"; "e"; "r"; "f"; "t"; "g"; "+"; "-"; "0"; "h"].

End ControlSession.

(* ===================================================================== *)
(** * RobotTester (lesson_1_8_test_utilities.py)                           *)
(* ===================================================================== *)

(** The clock is an input: [duration] is what the two [time.time()] calls
    measure.  The test function is run by the caller and its outcome is an
    input as well.  Standard output is modelled for print_summary only. *)
Module RobotTester.

(** [bool(v)] *)
Definition truthy (v : value) : bool :=
  match v with
  | VNone => false
  | VBool b => b
  | VInt z => negb (z =? 0)%Z
  | VStr s => negb (Nat.eqb (length s) 0)
  | VTuple items => negb (Nat.eqb (length items) 0)
  | VDict entries => negb (Nat.eqb (length entries) 0)
  | VObj _ => true
  end.

Record test_result := mk_result {
  name : pystr;
  status : pystr;
  duration : Q;
  error : option pystr
}.

Record t := mk {
  test_results : list test_result;
  passed : nat;
  failed : nat
}.

(** [__init__] *)
Definition init : t := mk [] 0 0.

(** [run_test(test_name, test_function)] when the call of test_function
    has the given outcome. *)
Definition run_test (st : t) (test_name : pystr) (outcome : res value)
    (duration : Q) : t * res bool :=
  match outcome with
  | Ok result =>
      if truthy result then
        (mk (test_results st
             ++ [mk_result test_name (u "PASSED") duration None])
            (passed st + 1) (failed st), Ok true)
      else
        (mk (test_results st
             ++ [mk_result test_name (u "FAILED") duration
                   (Some (u "Test returned False"))])
            (passed st) (failed st + 1), Ok false)
  | Raise e =>
      if exn_is_Exception e then
        (mk (test_results st
             ++ [mk_result test_name (u "ERROR") duration (Some (exn_str e))])
            (passed st) (failed st + 1), Ok false)
      else
        (st, Raise e)
  end.

(** One call of a test suite: name, outcome of the test function, time
    measured. *)
Definition test_run : Type := pystr * res value * Q.

(** Successive run_test calls; the suite stops at an exception that is
    not caught. *)
Fixpoint run_tests (st : t) (runs : list test_run) : t :=
  match runs with
  | [] => st
  | (test_name, outcome, duration) :: rest =>
      match run_test st test_name outcome duration with
      | (st', Ok _) => run_tests st' rest
      | (st', Raise _) => st'
      end
  end.

Definition ZeroDivisionError : exn :=
  mk_exn (u "ZeroDivisionError") true (u "division by zero").

(** [a / b] on numbers. *)
Definition true_div (a b : Q) : res Q :=
  if Qeq_bool b 0 then Raise ZeroDivisionError else Ok (a / b)%Q.

(** [str(x)] of an optional string. *)
Definition str_of_option (o : option pystr) : pystr :=
  match o with
  | Some s => s
  | None => u "None"
  end.

(** [result['status'] in ['FAILED', 'ERROR']] *)
Definition not_passed (r : test_result) : bool :=
  bool_decide (status r ∈ map u ["FAILED"; "ERROR"]).

Section print_summary.

(** [f"{x:.1f}"] *)
Variable format_1f : Q -> pystr.

(** The success rate print_summary shows. *)
Definition success_rate (st : t) : res Q :=
  let total := (passed st + failed st)%nat in
  if (0 <? total)%nat then
    ratio ← true_div (inject_Z (Z.of_nat (passed st)))
                     (inject_Z (Z.of_nat total));
    Ok (ratio * 100)%Q
  else Ok 0%Q.

(** [print_summary()]: the lines printed. *)
Definition print_summary (st : t) : res (list pystr) :=
  let total := (passed st + failed st)%nat in
  rate ← success_rate st;
  Ok ([nl ++ u "📊 TEST SUMMARY";
       str_repeat (u "=") 40;
       u "Total Tests: " ++ str_of_nat total;
       u "✅ Passed: " ++ str_of_nat (passed st);
       u "❌ Failed: " ++ str_of_nat (failed st);
       u "📊 Success Rate: " ++ format_1f rate ++ u "%"]
      ++ (if (0 <? failed st)%nat then
            (nl ++ u "❌ FAILED TESTS:")
            :: map (fun r => u "   • " ++ name r ++ u ": "
                             ++ str_of_option (error r))
                   (List.filter not_passed (test_results st))
          else [])).

End print_summary.

(** The number of results with a given status. *)
Definition count_results (s : pystr) (results : list test_result) : nat :=
  length (List.filter (fun r => bool_decide (status r = s)) results).

Definition count_status (s : pystr) (st : t) : nat :=
  count_results s (test_results st).

(** The counters agree with the recorded results. *)
Definition consistent (st : t) : Prop :=
  passed st = count_status (u "PASSED") st
  /\ failed st = (count_status (u "FAILED") st
                  + count_status (u "ERROR") st)%nat
  /\ (passed st + failed st)%nat = length (test_results st).

(** No test of the suite lets an exception escape run_test. *)
Definition all_caught (runs : list test_run) : Prop :=
  Forall (fun run : test_run =>
            match run.1.2 with
            | Ok _ => True
            | Raise e => exn_is_Exception e = true
            end) runs.

(** The test function returned a true value. *)
Definition run_passes (run : test_run) : bool :=
  match run.1.2 with
  | Ok result => truthy result
  | Raise _ => false
  end.

End RobotTester.

(* ===================================================================== *)
(** * Formatting helpers of the f-strings                                  *)
(* ===================================================================== *)

Module Fmt.

(** [f"{s:<width}"]: left-justified, padded with spaces, never cut. *)
Definition ljust (width : nat) (s : pystr) : pystr :=
  s ++ str_repeat (u " ") (width - length s).

(** [f"{s:>width}"] for text that is already a string. *)
Definition rjust (width : nat) (s : pystr) : pystr :=
  str_repeat (u " ") (width - length s) ++ s.

(** [f"{n:2d}"] for a non-negative integer. *)
Definition format_2d (n : nat) : pystr := rjust 2 (str_of_nat n).

(** [l[i]] on a list, with Python's negative indices. *)
Definition list_item {A} (l : list A) (i : Z) : res A :=
  let len := Z.of_nat (length l) in
  let pos := if (i <? 0)%Z then (i + len)%Z else i in
  if ((0 <=? pos) && (pos <? len))%Z then
    match nth_error l (Z.to_nat pos) with
    | Some x => Ok x
    | None => Raise (IndexError (u "list index out of range"))
    end
  else Raise (IndexError (u "list index out of range")).

End Fmt.

(* ===================================================================== *)
(** * More of archive/g1_extended_dataset_recorder.py                      *)
(* ===================================================================== *)

Module ExtendedRecorderPlan.

(** [episodes] and [steps_per_episode] of test_and_record_dataset
    (lines 35-36), for an integer duration in seconds. *)
Definition recording_plan (duration : Z) : Z * Z :=
  let episodes := if (duration <=? 15)%Z then 2%Z else 3%Z in
  let steps_per_episode := ((duration * 30) / episodes)%Z in
  (episodes, steps_per_episode).

(** [for i, dataset in enumerate(l, i): print(f"{i:2d}. {dataset}")] *)
Fixpoint print_failed (i : nat) (l : list pystr) : M unit :=
  match l with
  | [] => mret tt
  | dataset :: l' =>
      print (Fmt.format_2d i ++ u ". " ++ dataset);;
      print_failed (S i) l'
  end.

(** The [if failed_datasets:] block of main (lines 176-184). *)
Definition unavailable_report (failed_datasets : list pystr) : M unit :=
  match failed_datasets with
  | [] => mret tt
  | _ =>
      print (nl ++ u "❌ UNAVAILABLE DATASETS:");;
      print (str_repeat (u "-") 40);;
      let show_count := Nat.min 20 (length failed_datasets) in
      print_failed 1 (firstn show_count failed_datasets);;
      if (show_count <? length failed_datasets)%nat then
        print (u "    ... and "
               ++ str_of_nat (length failed_datasets - show_count)
               ++ u " more")
      else mret tt
  end.

(** A line of the numbered listing. *)
Definition listing_line (i : nat) (dataset : pystr) : event :=
  Out (Fmt.format_2d i ++ u ". " ++ dataset ++ nl).

End ExtendedRecorderPlan.

(* ===================================================================== *)
(** * The loop of archive/g1_dance_recorder.main                           *)
(* ===================================================================== *)

Module DanceRecorderMain.
Section main.

(** The try block of record_dance_dataset for each dataset. *)
Variable try_block : pystr -> M value.

(** The [for] loop of main (lines 104-112) from index [i] on. *)
Fixpoint record_all (i total : nat) (datasets : list pystr)
    (successful_recordings : list (pystr * value))
    (failed_recordings : list pystr)
  : M (list (pystr * value) * list pystr) :=
  match datasets with
  | [] => mret (successful_recordings, failed_recordings)
  | dataset :: rest =>
      print (nl ++ u "[" ++ Fmt.format_2d i ++ u "/" ++ str_of_nat total
             ++ u "] Processing: " ++ dataset);;
      video_file ←
        DanceRecorder.record_dance_dataset dataset (try_block dataset);
      if RobotTester.truthy video_file then
        record_all (S i) total rest
          (successful_recordings ++ [(dataset, video_file)])
          failed_recordings
      else
        record_all (S i) total rest successful_recordings
          (failed_recordings ++ [dataset])
  end.

End main.

Definition dance_datasets : list pystr :=
  map u ["dance1_subject1"; "dance1_subject2"; "dance1_subject3";
         "dance2_subject1"; "dance2_subject2"; "dance2_subject3";
         "dance2_subject4"; "dance2_subject5"].

End DanceRecorderMain.

(* ===================================================================== *)
(** * The menu of archive/g1_slow_motion_viewer.py                         *)
(* ===================================================================== *)

Module SlowMotionMenu.

Definition default_datasets : list (pystr * pystr) := [
  (u "walk", u "Natural walking gait");
  (u "squat", u "Squatting exercise");
  (u "stand", u "Standing posture");
  (u "walk_slow", u "Slow walking pace");
  (u "walk_fast", u "Fast walking pace");
  (u "jump", u "Jumping motion")
].

Definition lafan1_datasets : list (pystr * pystr) := [
  (u "walk1_subject1", u "Human walking capture 1");
  (u "walk1_subject2", u "Human walking capture 2");
  (u "dance2_subject4", u "Dance choreography");
  (u "run1_subject1", u "Running motion")
].

Definition menu_line (i : nat) (entry : pystr * pystr) : pystr :=
  u "  " ++ Fmt.format_2d i ++ u ". " ++ Fmt.ljust 15 entry.1 ++ u " - "
  ++ entry.2.

(** [for i, (name, desc) in enumerate(l, i): print(...)] *)
Fixpoint print_entries (i : nat) (l : list (pystr * pystr)) : M unit :=
  match l with
  | [] => mret tt
  | entry :: l' => print (menu_line i entry);; print_entries (S i) l'
  end.

(** The two listings and the ALL line of show_dataset_menu, for the lists
    it builds. *)
Definition print_menu (default_datasets lafan1_datasets : list (pystr * pystr))
  : M unit :=
  print (u "🏃 Default Datasets (Built-in):");;
  print_entries 1 default_datasets;;
  print (nl ++ u "🎭 LAFAN1 Datasets (Motion Capture):");;
  print_entries (length default_datasets + 1) lafan1_datasets;;
  print (nl ++ u "  "
         ++ Fmt.format_2d (length default_datasets + length lafan1_datasets + 1)
         ++ u ". ALL           - Show all datasets sequentially").

Definition show_dataset_menu
  : M (list (pystr * pystr) * list (pystr * pystr)) :=
  print (nl ++ u "📋 Available G1 Motion Datasets:");;
  print (str_repeat (u "=") 40);;
  print_menu default_datasets lafan1_datasets;;
  mret (default_datasets, lafan1_datasets).

(** What main does with a number the user entered. *)
Inductive selection :=
| PlayAll
| PlayDefault (name desc : pystr)
| PlayLafan1 (name desc : pystr)
| InvalidChoice.

(** The [if/elif] chain of main on [choice_num] (lines 108-144). *)
Definition select (default_datasets lafan1_datasets : list (pystr * pystr))
    (choice_num : Z) : res selection :=
  let n_default := Z.of_nat (length default_datasets) in
  let n_lafan1 := Z.of_nat (length lafan1_datasets) in
  if (choice_num =? n_default + n_lafan1 + 1)%Z then
    Ok PlayAll
  else if ((1 <=? choice_num) && (choice_num <=? n_default))%Z then
    entry ← Fmt.list_item default_datasets (choice_num - 1);
    Ok (PlayDefault entry.1 entry.2)
  else if ((n_default <? choice_num)
           && (choice_num <=? n_default + n_lafan1))%Z then
    let idx := (choice_num - n_default - 1)%Z in
    entry ← Fmt.list_item lafan1_datasets idx;
    Ok (PlayLafan1 entry.1 entry.2)
  else
    Ok InvalidChoice.


End SlowMotionMenu.

(* ===================================================================== *)
(** * Reading observations (lesson_1_6_motion_analysis.py)                 *)
(* ===================================================================== *)

(** An observation is a vector of numbers. *)
Module MotionData.

(** [obs[i]] for a constant index. *)
Definition obs_item (obs : list Q) (i : nat) : res Q :=
  match nth_error obs i with
  | Some x => Ok x
  | None => Raise (IndexError (u "index " ++ str_of_nat i
                               ++ u " is out of bounds for axis 0 with size "
                               ++ str_of_nat (length obs)))
  end.

(** [obs[i] if len(obs) > i else 0] *)
Definition obs_item_or_zero (obs : list Q) (i : nat) : res Q :=
  if (i <? length obs)%nat then obs_item obs i else Ok 0%Q.

(** The entry appended to [joint_positions] by collect_live_motion_data
    (lines 193-198). *)
Definition joint_positions_entry (obs : list Q) : res (Q * Q) :=
  if (6 <=? length obs)%nat then
    hip_pos ← obs_item_or_zero obs 0;
    knee_pos ← obs_item_or_zero obs 3;
    Ok (hip_pos, knee_pos)
  else Ok (0%Q, 0%Q).

(** The entry appended to [joint_velocities] (lines 201-207);
    [np.mean] of two numbers. *)
Definition joint_velocity_entry (obs : list Q) : res Q :=
  if (12 <=? length obs)%nat then
    vel1 ← obs_item_or_zero obs 6;
    vel2 ← obs_item_or_zero obs 9;
    Ok ((Qabs vel1 + Qabs vel2) / 2)%Q
  else Ok 0%Q.

(** The entry appended to [center_of_mass] (lines 210-214). *)
Definition center_of_mass_entry (obs : list Q) : res Q :=
  if (3 <=? length obs)%nat then obs_item_or_zero obs 2 else Ok 0%Q.

(** [d.append(x)] on a [deque(maxlen=maxlen)]: the oldest entries are
    dropped when the deque is full. *)
Definition deque_append {A} (maxlen : nat) (d : list A) (x : A) : list A :=
  skipn (length (d ++ [x]) - maxlen) (d ++ [x]).

(** The entry appended to [energy_metrics] (lines 217-221):
    the square of [joint_velocities[-1]], or 0 for an empty deque. *)
Definition energy_entry (joint_velocities : list Q) : Q :=
  match last joint_velocities with
  | Some v => (v * v)%Q
  | None => 0%Q
  end.

(** The five deques of collect_live_motion_data. *)
Record live_data := mk_live_data {
  joint_positions : list (Q * Q);
  joint_velocities : list Q;
  center_of_mass : list Q;
  energy_metrics : list Q;
  time_steps : list Q
}.

Definition no_data : live_data := mk_live_data [] [] [] [] [].

(** What one iteration of the loop stores for the observation [obs]
    (lines 189-221). *)
Definition record_step (n_steps step : nat) (data : live_data)
    (obs : list Q) : res live_data :=
  let current_time := (inject_Z (Z.of_nat step) * (33 # 1000))%Q in
  let time_steps' := deque_append n_steps (time_steps data) current_time in
  positions ← joint_positions_entry obs;
  let joint_positions' :=
    deque_append n_steps (joint_positions data) positions in
  avg_vel ← joint_velocity_entry obs;
  let joint_velocities' :=
    deque_append n_steps (joint_velocities data) avg_vel in
  com_height ← center_of_mass_entry obs;
  let center_of_mass' :=
    deque_append n_steps (center_of_mass data) com_height in
  let energy_metrics' :=
    deque_append n_steps (energy_metrics data)
                 (energy_entry joint_velocities') in
  Ok (mk_live_data joint_positions' joint_velocities' center_of_mass'
        energy_metrics' time_steps').

(** The loop over the observations seen at steps [step], [step + 1], ... *)
Fixpoint record_steps (n_steps step : nat) (data : live_data)
    (observations : list (list Q)) : res live_data :=
  match observations with
  | [] => Ok data
  | obs :: rest =>
      data' ← record_step n_steps step data obs;
      record_steps n_steps (S step) data' rest
  end.

(** The five deques hold [k] entries each, and no velocity or energy is
    negative. *)
Definition recorded (k : nat) (data : live_data) : Prop :=
  length (joint_positions data) = k
  /\ length (joint_velocities data) = k
  /\ length (center_of_mass data) = k
  /\ length (energy_metrics data) = k
  /\ length (time_steps data) = k
  /\ Forall (fun v => (0 <= v)%Q) (joint_velocities data)
  /\ Forall (fun e => (0 <= e)%Q) (energy_metrics data).

(** [obs[a:b]] for [0 <= a <= b]. *)
Definition slice (a b : nat) (obs : list Q) : list Q :=
  firstn (b - a) (skipn a obs).

(** The rows stored by collect_motion_data (lines 373-374). *)
Definition positions_row (obs : list Q) : list Q :=
  if (10 <=? length obs)%nat then slice 0 10 obs else obs.

Definition velocities_row (obs : list Q) : list Q :=
  if (20 <=? length obs)%nat then slice 10 20 obs else repeat 0%Q 10.

End MotionData.

(* ===================================================================== *)
(** * Pacing of lesson_1_3_basic_datasets.py                               *)
(* ===================================================================== *)

Module Lesson13Pacing.


End Lesson13Pacing.

(* ===================================================================== *)
(** * Properties                                                           *)
(* ===================================================================== *)

(* --------------------------------------------------------------------- *)
(** ** Entry points (C1, C2)                                               *)
(* --------------------------------------------------------------------- *)

Section ScriptTable.
Import Scripts.







End ScriptTable.

(* --------------------------------------------------------------------- *)
(** ** get_action_size (C3)                                                *)
(* --------------------------------------------------------------------- *)


Example get_action_size_of_bare_object :
  ActionSize.get_action_size (VObj []) = Ok (VInt 23).
Proof. reflexivity. Qed.

Example get_action_size_of_shape :
  ActionSize.get_action_size
    (VObj [(u "action_space", VObj [(u "shape", VTuple [VInt 23; VInt 2])])])
  = Ok (VInt 23)
  /\ ActionSize.get_action_size
       (VObj [(u "action_size", VInt 12);
              (u "action_space", VObj [(u "shape", VTuple [VInt 5])])])
     = Ok (VInt 12).
Proof. split; reflexivity. Qed.

(* --------------------------------------------------------------------- *)
(** ** Unpacking the step result (C4)                                      *)
(* --------------------------------------------------------------------- *)

(** C4, as the specification states it, fails for a tuple shorter than
    three: the last branch is taken and the unpacking of step_result[:3]
    raises ValueError. *)
Lemma C4_short_tuple_raises :
  ~ (forall step_result : list value,
       length step_result <> 5 -> length step_result <> 4 ->
       exists state reward terminated rest,
         step_result = state :: reward :: terminated :: rest
         /\ StepUnpack.unpack_step step_result
            = Ok (StepUnpack.mk_step_vars state reward terminated
                    (VBool false) (VDict []))).
Proof.
  intros H.
  destruct (H [VInt 0; VInt 1]) as (s & r & t & rest & Heq & _);
    [discriminate | discriminate | discriminate Heq].
Qed.

(** C4 (amended): in lesson_1_8_test_utilities a result of length 5 is
    unpacked as (state, reward, terminated, truncated, info); one of length
    4 as (state, reward, terminated, info) with truncated False; any other
    result of length at least 3 gives its first three elements with
    truncated False and info the empty dict; a shorter result raises
    ValueError. *)
Theorem C4_unpack_step (step_result : list value) :
  match step_result with
  | [state; reward; terminated; truncated; info] =>
      StepUnpack.unpack_step step_result
      = Ok (StepUnpack.mk_step_vars state reward terminated truncated info)
  | [state; reward; terminated; info] =>
      StepUnpack.unpack_step step_result
      = Ok (StepUnpack.mk_step_vars state reward terminated (VBool false) info)
  | state :: reward :: terminated :: _ =>
      StepUnpack.unpack_step step_result
      = Ok (StepUnpack.mk_step_vars state reward terminated (VBool false)
              (VDict []))
  | _ =>
      StepUnpack.unpack_step step_result
      = Raise (unpack_error 3 (length step_result))
  end.
Proof.
  destruct step_result as [| a [| b [| c [| d [| e [| f rest]]]]]];
    reflexivity.
Qed.

(** The other two scripts cited for the pattern branch differently. *)
Example quick_test_unpacking_rejects_three :
  StepUnpack.unpack_step_quick_test [VInt 0; VInt 1; VBool false]
  = Raise (unpack_error 4 3).
Proof. reflexivity. Qed.

Example debug_test_unpacking_skips_five :
  StepUnpack.unpack_step_debug
    [VInt 0; VInt 1; VBool false; VBool false; VDict []]
  = Ok None.
Proof. reflexivity. Qed.

(* --------------------------------------------------------------------- *)
(** ** Truncated error messages (C5)                                       *)
(* --------------------------------------------------------------------- *)

Lemma slice_to_short (n : nat) (s : pystr) :
  (length s <= n)%nat -> slice_to n s = s.
Proof. intros H. unfold slice_to. now apply firstn_all2. Qed.

Lemma slice_to_long (n : nat) (s : pystr) :
  (n < length s)%nat -> length (slice_to n s) = n /\ slice_to n s <> s.
Proof.
  intros H. unfold slice_to.
  assert (Hlen : length (firstn n s) = n)
    by (rewrite length_firstn; lia).
  split; [exact Hlen |]. intros Heq. rewrite Heq in Hlen. lia.
Qed.

(** C5, as the specification states it, fails: a message of at most 50
    characters is printed in full by g1_extended_dataset_recorder. *)
Lemma C5_short_message_printed_in_full :
  ~ (forall (e : exn) (w : world),
       exn_is_Exception e = true ->
       contains (u "404") (exn_str e) = false ->
       contains (u "Entry Not Found") (exn_str e) = false ->
       contains (exn_str e)
         (stdout (trace_of (ExtendedRecorder.on_error e w))) = false).
Proof.
  intros H.
  specialize (H (RuntimeError (u "boom")) [] eq_refl eq_refl eq_refl).
  vm_compute in H. discriminate H.
Qed.

(** C5 (amended): when the try block raises an exception e derived from
    Exception, g1_extended_dataset_recorder prints (unless str(e) contains
    "404" or "Entry Not Found") exactly " ❌ Error: ", the first 50
    characters of str(e) and "...", and returns (False, None);
    g1_dance_recorder prints exactly "   ❌ Recording failed: ", the first
    100 characters of str(e) and "...", and returns None.  The slice is the
    whole message when the message is no longer than the bound, and
    exactly that many characters otherwise. *)
Theorem C5_error_text_truncated
    (dataset_name : pystr) (try_block : M value)
    (w w1 : world) (t1 : list event) (e : exn) :
  try_block w = (Raise e, w1, t1) ->
  exn_is_Exception e = true ->
  (contains (u "404") (exn_str e)
   || contains (u "Entry Not Found") (exn_str e) = false ->
   ExtendedRecorder.test_and_record_dataset dataset_name try_block w
   = (Ok (VTuple [VBool false; VNone]), w1,
      Out (nl ++ u "🔍 Testing " ++ dataset_name ++ u "...") :: t1
      ++ [Out (u " ❌ Error: " ++ slice_to 50 (exn_str e) ++ u "..." ++ nl)]))
  /\ DanceRecorder.record_dance_dataset dataset_name try_block w
     = (Ok VNone, w1,
        Out (nl ++ u "🎬 Recording dance: " ++ dataset_name ++ nl) :: t1
        ++ [Out (u "   ❌ Recording failed: " ++ slice_to 100 (exn_str e)
                 ++ u "..." ++ nl)])
  /\ (forall n, (length (exn_str e) <= n)%nat ->
        slice_to n (exn_str e) = exn_str e)
  /\ (forall n, (n < length (exn_str e))%nat ->
        length (slice_to n (exn_str e)) = n
        /\ slice_to n (exn_str e) <> exn_str e).
Proof.
  intros Hbody Hexc. split; [| split; [| split]].
  - intros H404.
    unfold ExtendedRecorder.test_and_record_dataset,
      ExtendedRecorder.on_error.
    unfold_M. rewrite Hbody, Hexc. unfold_M. rewrite H404. cbn [app].
    rewrite ?app_nil_r, <- ?app_assoc. reflexivity.
  - unfold DanceRecorder.record_dance_dataset, DanceRecorder.on_error.
    unfold_M. rewrite Hbody, Hexc. cbn [app].
    rewrite ?app_nil_r, <- ?app_assoc. reflexivity.
  - intros n. apply slice_to_short.
  - intros n. apply slice_to_long.
Qed.

Lemma C5_error_text_truncated_witness :
  ExtendedRecorder.test_and_record_dataset (u "jog")
    (_ ← call (Make (u "UnitreeG1") [u "jog"] (Some 15%Z)); mret VNone)
    [Raises (RuntimeError (u "boom"))]
  = (Ok (VTuple [VBool false; VNone]), [],
     Out (nl ++ u "🔍 Testing " ++ u "jog" ++ u "...")
     :: [Ext (Make (u "UnitreeG1") [u "jog"] (Some 15%Z))]
     ++ [Out (u " ❌ Error: " ++ slice_to 50 (u "boom") ++ u "..." ++ nl)]).
Proof.
  destruct (C5_error_text_truncated (u "jog")
              (_ ← call (Make (u "UnitreeG1") [u "jog"] (Some 15%Z));
               mret VNone)
              [Raises (RuntimeError (u "boom"))] []
              [Ext (Make (u "UnitreeG1") [u "jog"] (Some 15%Z))]
              (RuntimeError (u "boom")) eq_refl eq_refl) as [Hext _].
  exact (Hext eq_refl).
Defined.

(* --------------------------------------------------------------------- *)
(** ** Facts about the effect monad                                        *)
(* --------------------------------------------------------------------- *)

Section EffFacts.
Context {A B : Type}.
Implicit Types (P : ext_call -> Prop) (w : world) (t : list event).

Lemma calls_app t1 t2 : calls (t1 ++ t2) = calls t1 ++ calls t2.
Proof.
  induction t1 as [| ev t1 IH]; [reflexivity |].
  destruct ev; simpl; now rewrite IH.
Qed.

Lemma stdout_app t1 t2 : stdout (t1 ++ t2) = stdout t1 ++ stdout t2.
Proof.
  induction t1 as [| ev t1 IH]; [reflexivity |].
  destruct ev; simpl; rewrite IH; [now rewrite app_assoc | | |]; reflexivity.
Qed.


Lemma sound_ret P (a : A) : sound P (mret a).
Proof. intros w Hw. repeat split; [exact Hw | discriminate | constructor]. Qed.

Lemma sound_bind P (m : M A) (k : A -> M B) :
  sound P m -> (forall a, sound P (k a)) -> sound P (m ≫= k).
Proof.
  intros Hm Hk w Hw. destruct (Hm w Hw) as (Hrest & Hexc & Hcalls).
  unfold mbind, M_bind, result_of, rest_of, trace_of in *.
  destruct (m w) as [[[a | e] w1] t1]; simpl in *.
  - destruct (Hk a w1 Hrest) as (Hrest2 & Hexc2 & Hcalls2).
    unfold result_of, rest_of, trace_of in *.
    destruct (k a w1) as [[r w2] t2]; simpl in *.
    split; [exact Hrest2 | split; [exact Hexc2 |]].
    rewrite calls_app. apply Forall_app. now split.
  - split; [exact Hrest | split; [| exact Hcalls]].
    intros e0 [= <-]. now apply Hexc.
Qed.

Lemma returns_sound P (m : M A) : returns P m -> sound P m.
Proof. now intros [Hs _]. Qed.

Lemma returns_ret P (a : A) : returns P (mret a).
Proof. split; [apply sound_ret | intros w _; now exists a]. Qed.

Lemma returns_bind P (m : M A) (k : A -> M B) :
  returns P m -> (forall a, returns P (k a)) -> returns P (m ≫= k).
Proof.
  intros [Hm Hma] Hk. split.
  - apply sound_bind; [assumption | intros a; apply Hk].
  - intros w Hw. destruct (Hma w Hw) as [a Ha].
    destruct (Hm w Hw) as (Hrest & _ & _).
    unfold mbind, M_bind, result_of, rest_of in *.
    destruct (m w) as [[r w1] t1]; simpl in *. subst r.
    destruct (Hk a) as [_ Hka]. destruct (Hka w1 Hrest) as [b Hb].
    unfold result_of in Hb.
    destruct (k a w1) as [[r2 w2] t2]; simpl in *. now exists b.
Qed.

Lemma sound_try_except P (body : M A) (handler : exn -> M A) :
  sound P body -> (forall e, sound P (handler e)) ->
  sound P (try_except body handler).
Proof.
  intros Hb Hh w Hw. destruct (Hb w Hw) as (Hrest & Hexc & Hcalls).
  unfold try_except, result_of, rest_of, trace_of in *.
  destruct (body w) as [[[a | e] w1] t1]; simpl in *.
  - split; [exact Hrest | split; [exact Hexc | exact Hcalls]].
  - rewrite (Hexc e eq_refl).
    destruct (Hh e w1 Hrest) as (Hrest2 & Hexc2 & Hcalls2).
    unfold result_of, rest_of, trace_of in *.
    destruct (handler e w1) as [[r w2] t2]; simpl in *.
    split; [exact Hrest2 | split; [exact Hexc2 |]].
    rewrite calls_app. apply Forall_app. now split.
Qed.

(** A [try] whose handler returns lets nothing through, provided the body
    raises only [Exception]s. *)
Lemma returns_try_except P (body : M A) (handler : exn -> M A) :
  sound P body -> (forall e, returns P (handler e)) ->
  returns P (try_except body handler).
Proof.
  intros Hb Hh. split.
  - apply sound_try_except; [assumption | intros e; apply Hh].
  - intros w Hw. destruct (Hb w Hw) as (Hrest & Hexc & _).
    unfold try_except, result_of, rest_of in *.
    destruct (body w) as [[[a | e] w1] t1]; simpl in *.
    + now exists a.
    + rewrite (Hexc e eq_refl).
      destruct (Hh e) as [_ Hhe]. destruct (Hhe w1 Hrest) as [a Ha].
      unfold result_of in Ha.
      destruct (handler e w1) as [[r w2] t2]; simpl in *. now exists a.
Qed.

End EffFacts.

Lemma returns_print P (s : pystr) : returns P (print s).
Proof.
  split; [| intros w _; now exists tt].
  intros w Hw. repeat split; [exact Hw | discriminate | constructor].
Qed.

Lemma returns_print_end P (s e : pystr) : returns P (print_end s e).
Proof.
  split; [| intros w _; now exists tt].
  intros w Hw. repeat split; [exact Hw | discriminate | constructor].
Qed.

Lemma returns_sleep P (seconds : Z) : returns P (sleep seconds).
Proof.
  split; [| intros w _; now exists tt].
  intros w Hw. repeat split; [exact Hw | discriminate | constructor].
Qed.

Lemma returns_narrate P (function : string) : returns P (narrate function).
Proof.
  split; [| intros w _; now exists tt].
  intros w Hw. repeat split; [exact Hw | discriminate | constructor].
Qed.

Lemma sound_call (P : ext_call -> Prop) (c : ext_call) : P c -> sound P (call c).
Proof.
  intros Hc w Hw. unfold call, result_of, rest_of, trace_of.
  destruct w as [| [shown | e] w']; simpl.
  - repeat split; [constructor | discriminate | now repeat constructor].
  - inversion Hw; subst.
    repeat split; [assumption | discriminate | now repeat constructor].
  - inversion Hw; subst.
    repeat split; [assumption | | now repeat constructor].
    intros e' [= <-]. assumption.
Qed.

Create HintDb eff.
#[local] Hint Resolve sound_ret sound_bind sound_try_except sound_call
  returns_ret returns_bind returns_try_except returns_print returns_print_end
  returns_sleep returns_narrate : eff.
#[local] Hint Extern 2 (sound _ (print _)) =>
  apply returns_sound, returns_print : eff.
#[local] Hint Extern 2 (sound _ (sleep _)) =>
  apply returns_sound, returns_sleep : eff.
#[local] Hint Extern 2 (sound _ (narrate _)) =>
  apply returns_sound, returns_narrate : eff.
#[local] Hint Extern 2 (sound _ (if _ then _ else _)) =>
  match goal with |- context [if ?c then _ else _] => destruct c end : eff.
#[local] Hint Extern 2 (returns _ (if _ then _ else _)) =>
  match goal with |- context [if ?c then _ else _] => destruct c end : eff.

(* --------------------------------------------------------------------- *)
(** ** The fallback of g1_01_basic_datasets (C6)                           *)
(* --------------------------------------------------------------------- *)

Section BasicDatasetsArchiveFacts.
Import BasicDatasetsArchive.

















(** The multi-dataset environment cannot be created, the fallback can. *)
Example main_falls_back_to_walk :
  let w := [Raises (RuntimeError (u "404 Client Error"))] in
  result_of (main w) = Ok tt
  /\ calls (trace_of (main w))
     = [Make (u "UnitreeG1") (map u ["walk"; "squat"]) (Some 20%Z);
        fallback_make; PlayTrajectory 2 500 true].
Proof. split; vm_compute; reflexivity. Qed.

End BasicDatasetsArchiveFacts.

(* --------------------------------------------------------------------- *)
(** ** The demonstration loop of lesson_1_3_basic_datasets (C7)            *)
(* --------------------------------------------------------------------- *)

Section Lesson13Facts.
Import Lesson13.






Lemma makes_available_basic_motions :
  makes (trace_of (available_basic_motions [])) = [].
Proof. reflexivity. Qed.





(** The run data set is missing: three of four demonstrations succeed and
    the loop still reaches balance. *)
Example main_reports_three_of_four :
  let w := [Returns (u "env"); Returns [];
            Raises (RuntimeError (u "404 Client Error: run"));
            Returns (u "env"); Returns []; Returns (u "env"); Returns []] in
  demo_results motion_names w = [true; false; true; true]
  /\ result_of (main w) = Ok tt
  /\ makes (trace_of (main w)) = map make_call motion_names
  /\ In (Out (u "✅ Successfully demonstrated: 3/4 motions" ++ nl))
        (trace_of (main w)).
Proof.
  cbv zeta. split; [vm_compute; reflexivity |].
  split; [vm_compute; reflexivity |].
  split; [vm_compute; reflexivity |].
  vm_compute. repeat first [left; reflexivity | right].
Qed.

End Lesson13Facts.

(* --------------------------------------------------------------------- *)
(** ** The background colour (C8)                                          *)
(* --------------------------------------------------------------------- *)

Section BackgroundFacts.
Import Background.

Lemma colors_lookup (color_name : pystr) :
  colors !! color_name =
    if decide (color_name = u "black") then Some (u "0 0 0")
    else if decide (color_name = u "dark_blue") then Some (u "0.1 0.1 0.2")
    else if decide (color_name = u "dark_gray") then Some (u "0.2 0.2 0.2")
    else if decide (color_name = u "white") then Some (u "1 1 1")
    else if decide (color_name = u "default") then Some (u "0.2 0.3 0.4")
    else None.
Proof.
  unfold colors. cbn [list_to_map foldr fst snd uncurry].
  repeat (rewrite lookup_insert; case_decide); rewrite ?lookup_empty;
    repeat case_decide; subst; try reflexivity; congruence.
Qed.

Lemma rgb_black : rgb_in_range (u "0 0 0").
Proof. rgb_computed. Qed.
Lemma rgb_dark_blue : rgb_in_range (u "0.1 0.1 0.2").
Proof. rgb_computed. Qed.
Lemma rgb_dark_gray : rgb_in_range (u "0.2 0.2 0.2").
Proof. rgb_computed. Qed.
Lemma rgb_white : rgb_in_range (u "1 1 1").
Proof. rgb_computed. Qed.
Lemma rgb_default : rgb_in_range (u "0.2 0.3 0.4").
Proof. rgb_computed. Qed.

(** C8: for every colour name, set_background_color stores under
    MUJOCO_GL_BACKGROUND an "R G B" string whose three components are in
    the range 0 to 1: the string mapped to the name for black, dark_blue,
    dark_gray, white and default, and "0 0 0" for any other name. *)
Theorem C8_background_color (color_name : pystr)
    (environ : gmap pystr pystr) :
  exists bg_color line,
    set_background_color color_name environ
    = Ok (<[MUJOCO_GL_BACKGROUND := bg_color]> environ, line)
    /\ bg_color =
         (if decide (color_name = u "black") then u "0 0 0"
          else if decide (color_name = u "dark_blue") then u "0.1 0.1 0.2"
          else if decide (color_name = u "dark_gray") then u "0.2 0.2 0.2"
          else if decide (color_name = u "white") then u "1 1 1"
          else if decide (color_name = u "default") then u "0.2 0.3 0.4"
          else u "0 0 0")
    /\ rgb_in_range bg_color
    /\ (<[MUJOCO_GL_BACKGROUND := bg_color]> environ) !! MUJOCO_GL_BACKGROUND
       = Some bg_color.
Proof.
  exists (default (u "0 0 0") (colors !! color_name)).
  eexists. split; [reflexivity |].
  rewrite (colors_lookup color_name).
  split; [| split; [| apply lookup_insert_eq]];
    repeat case_decide; cbn [default from_option];
    auto using rgb_black, rgb_dark_blue, rgb_dark_gray, rgb_white,
      rgb_default.
Qed.

(** background_color_guide.py writes the black string directly. *)
Lemma method_1_sets_black (environ : gmap pystr pystr) :
  method_1_environment_variable environ !! MUJOCO_GL_BACKGROUND
  = Some (u "0 0 0")
  /\ rgb_in_range (u "0 0 0").
Proof. split; [apply lookup_insert_eq | apply rgb_black]. Qed.

End BackgroundFacts.

(* --------------------------------------------------------------------- *)
(** ** The controller's bounds (C9)                                        *)
(* --------------------------------------------------------------------- *)

Section ControllerFacts.
Import Controller.

Lemma step_up_in_range (x speed : Q) :
  action_in_range x -> speed_in_range speed ->
  action_in_range (Qmin 1 (x + speed)).
Proof.
  intros [Hlo Hhi] [Hslo Hshi]. split.
  - apply Q.min_glb; lra.
  - apply Q.le_min_l.
Qed.

Lemma step_down_in_range (x speed : Q) :
  action_in_range x -> speed_in_range speed ->
  action_in_range (Qmax (-1) (x - speed)).
Proof.
  intros [Hlo Hhi] [Hslo Hshi]. split.
  - apply Q.le_max_l.
  - apply Q.max_lub; lra.
Qed.

Lemma faster_in_range (speed : Q) :
  speed_in_range speed -> speed_in_range (Qmin (1 # 2) (speed + (2 # 100))).
Proof.
  intros [Hlo Hhi]. split.
  - apply Q.min_glb; lra.
  - apply Q.le_min_l.
Qed.

Lemma slower_in_range (speed : Q) :
  speed_in_range speed -> speed_in_range (Qmax (1 # 100) (speed - (2 # 100))).
Proof.
  intros [Hlo Hhi]. split.
  - apply Q.le_max_l.
  - apply Q.max_lub; lra.
Qed.

Lemma zeros_in_range (n : nat) : Forall action_in_range (repeat 0%Q n).
Proof.
  induction n as [| n IH]; simpl; constructor; [| exact IH].
  split; lra.
Qed.

Lemma bounded_init (n : nat) : bounded (init n).
Proof.
  split; [apply zeros_in_range |]. unfold init, speed_in_range. simpl.
  split; lra.
Qed.

(** Writing one joint keeps the bounds when the new value is in range;
    an index out of range raises and changes nothing. *)
Lemma set_joint_bounded (st : t) (i : nat) (f : Q -> Q) :
  bounded st ->
  (forall x, action_in_range x -> action_in_range (f x)) ->
  bounded (set_joint st i f).1.
Proof.
  intros [Hact Hspeed] Hf. unfold set_joint.
  destruct (current_action st !! i) as [x |] eqn:Hx; simpl.
  - split; [| exact Hspeed]. simpl.
    apply Forall_insert; [exact Hact |].
    apply Hf. exact (Forall_lookup_1 _ _ _ _ Hact Hx).
  - now split.
Qed.

Lemma update_action_bounded (st : t) (key : pystr) :
  bounded st -> bounded (update_action st key).1.
Proof.
  intros Hb. pose proof Hb as [Hact Hspeed]. unfold update_action.
  repeat case_decide;
    repeat match goal with
           | |- context [(?a <? ?b)%nat] => destruct (a <? b)%nat
           end;
    try exact Hb;
    try (apply set_joint_bounded; [exact Hb |];
         intros x Hx;
         first [now apply step_up_in_range | now apply step_down_in_range]).
  - split; [exact Hact | now apply faster_in_range].
  - split; [exact Hact | now apply slower_in_range].
  - split; [apply zeros_in_range | exact Hspeed].
Qed.

(** C9: starting from the all-zeros action vector and speed 0.1 set by
    __init__, every sequence of update_action calls, with any keys in any
    order, leaves every entry of current_action in [-1, 1] and
    control_speed in [0.01, 0.5]. *)
Theorem C9_controller_bounded (n : nat) (keys : list pystr) :
  bounded (update_actions (init n) keys).
Proof.
  pose proof (bounded_init n) as Hinit.
  generalize dependent (init n).
  induction keys as [| key keys IH]; intros st Hb.
  - exact Hb.
  - unfold update_actions. cbn [fold_left].
    apply IH. now apply update_action_bounded.
Qed.

Example controller_saturates :
  let st := update_actions (init 23) (map u ["+"; "+"; "w"; "w"; "w"; "w";
                                             "w"; "w"; "w"; "w"; "w"; "s"]) in
  exists x, current_action st !! 0%nat = Some x
            /\ (x == 86 # 100)%Q /\ (control_speed st == 14 # 100)%Q.
Proof. vm_compute. eexists. split; [reflexivity | split; reflexivity]. Qed.

(** With fewer than three joints the unguarded keys raise IndexError and
    leave the controller as it was. *)
Example controller_index_error :
  update_action (init 2) (u "q")
  = (init 2, Raise (IndexError (u "index 2 is out of bounds for axis 0 with size 2"))).
Proof. reflexivity. Qed.

End ControllerFacts.

(* --------------------------------------------------------------------- *)
(** ** SlowMotionViewer.set_speed (C10)                                    *)
(* --------------------------------------------------------------------- *)

Section SlowMotionViewerFacts.
Import SlowMotionViewer.

Lemma multipliers_lookup (speed_name : pystr) :
  multipliers !! speed_name =
    if decide (speed_name = u "ultra_slow") then Some (10 # 1)
    else if decide (speed_name = u "very_slow") then Some (5 # 1)
    else if decide (speed_name = u "slow") then Some (2 # 1)
    else if decide (speed_name = u "normal") then Some (1 # 1)
    else if decide (speed_name = u "fast") then Some (1 # 2)
    else None.
Proof.
  unfold multipliers. cbn [list_to_map foldr fst snd uncurry].
  repeat (rewrite lookup_insert; case_decide); rewrite ?lookup_empty;
    repeat case_decide; subst; try reflexivity; congruence.
Qed.

Lemma unknown_speed (speed_name : pystr) :
  ~ In speed_name speed_names -> multipliers !! speed_name = None.
Proof.
  intros Hnot. rewrite multipliers_lookup.
  repeat case_decide; try reflexivity; subst; exfalso; apply Hnot;
    unfold speed_names; simpl; tauto.
Qed.

(** The five names are the keys: each of them is accepted. *)
Lemma known_speeds (bd : Q) :
  Forall (fun speed_name =>
            current_speed (set_speed (init bd) speed_name) = speed_name)
         speed_names.
Proof. repeat constructor. Qed.

(** set_speed never touches the table of multipliers. *)
Lemma set_speed_keeps_multipliers (st : t) (speed_name : pystr) :
  speed_multipliers (set_speed st speed_name) = speed_multipliers st.
Proof. unfold set_speed. now destruct (known_speed st speed_name). Qed.

(** C10: for a viewer whose table is the one __init__ builds, and for every
    speed name that is not one of 'ultra_slow', 'very_slow', 'slow',
    'normal', 'fast', set_speed leaves the viewer (in particular
    current_speed) unchanged, so get_current_delay gives the same result
    before and after the call. *)
Theorem C10_set_speed_unknown (st : t) (speed_name : pystr) :
  speed_multipliers st = multipliers ->
  ~ In speed_name speed_names ->
  set_speed st speed_name = st
  /\ current_speed (set_speed st speed_name) = current_speed st
  /\ get_current_delay (set_speed st speed_name) = get_current_delay st.
Proof.
  intros Htable Hnot.
  assert (Hsame : set_speed st speed_name = st).
  { unfold set_speed, known_speed.
    rewrite Htable, (unknown_speed _ Hnot).
    rewrite bool_decide_eq_false_2; [reflexivity |].
    intros [x Hx]. discriminate Hx. }
  now rewrite Hsame.
Qed.

Lemma C10_set_speed_unknown_witness :
  get_current_delay (set_speed (init default_base_delay) (u "turbo"))
  = get_current_delay (init default_base_delay).
Proof.
  apply (C10_set_speed_unknown (init default_base_delay) (u "turbo")).
  - reflexivity.
  - vm_compute. intros H. decompose [or] H; try discriminate; assumption.
Defined.

Example delay_after_slow :
  get_current_delay (set_speed (init default_base_delay) (u "slow"))
  = Ok (default_base_delay * (2 # 1))%Q.
Proof. reflexivity. Qed.

End SlowMotionViewerFacts.

(* --------------------------------------------------------------------- *)
(** ** More about SlowMotionViewer                                         *)
(* --------------------------------------------------------------------- *)

Section SlowMotionAnalysisFacts.
Import SlowMotionViewer SlowMotionAnalysis.

Lemma known_speed_in_names (st : t) (speed_name : pystr) :
  speed_multipliers st = multipliers ->
  known_speed st speed_name = true -> In speed_name speed_names.
Proof.
  intros Htable Hknown. unfold known_speed in Hknown.
  apply bool_decide_eq_true in Hknown. rewrite Htable in Hknown.
  destruct (decide (In speed_name speed_names)) as [Hin | Hnot];
    [exact Hin |].
  rewrite (unknown_speed _ Hnot) in Hknown.
  destruct Hknown as [x Hx]. discriminate Hx.
Qed.

Lemma names_are_keys (speed_name : pystr) :
  In speed_name speed_names -> is_Some (multipliers !! speed_name).
Proof.
  intros Hin. unfold speed_names in Hin. simpl in Hin.
  decompose [or] Hin; subst; try (eexists; reflexivity). contradiction.
Qed.

Lemma set_speed_well_formed bd st speed_name :
  well_formed bd st -> well_formed bd (set_speed st speed_name).
Proof.
  intros (Htable & Hbd & Hin). unfold set_speed.
  destruct (known_speed st speed_name) eqn:Hknown; [| now repeat split].
  repeat split; simpl; try assumption.
  now apply (known_speed_in_names st).
Qed.

Lemma set_speeds_well_formed bd speed_names0 : forall st,
  well_formed bd st -> well_formed bd (set_speeds st speed_names0).
Proof.
  induction speed_names0 as [| n rest IH]; intros st Hwf; [exact Hwf |].
  apply IH. now apply set_speed_well_formed.
Qed.

(** X1: whatever names set_speed is called with, current_speed stays one of
    the five keys, so get_current_delay never raises KeyError: it returns
    base_delay times the multiplier of the current speed. *)
Theorem viewer_delay_always_defined (bd : Q) (names : list pystr) :
  let st := set_speeds (init bd) names in
  In (current_speed st) speed_names
  /\ exists multiplier,
       multipliers !! current_speed st = Some multiplier
       /\ get_current_delay st = Ok (bd * multiplier)%Q.
Proof.
  intros st.
  assert (Hwf : well_formed bd st).
  { apply set_speeds_well_formed. repeat split. simpl. tauto. }
  destruct Hwf as (Htable & Hbd & Hin). split; [exact Hin |].
  destruct (names_are_keys _ Hin) as [m Hm]. exists m. split; [exact Hm |].
  unfold get_current_delay. now rewrite Htable, Hm, Hbd.
Qed.

Lemma set_speeds_last_known names : forall st,
  speed_multipliers st = multipliers ->
  current_speed (set_speeds st names)
  = default (current_speed st)
            (last (filter (fun n => In n speed_names) names)).
Proof.
  induction names as [| n rest IH]; intros st Htable; [reflexivity |].
  cbn [set_speeds fold_left]. fold (set_speeds (set_speed st n) rest).
  rewrite IH by (now rewrite set_speed_keeps_multipliers).
  rewrite filter_cons. unfold set_speed.
  destruct (decide (In n speed_names)) as [Hin | Hnot].
  - assert (Hknown : known_speed st n = true).
    { unfold known_speed. apply bool_decide_eq_true. rewrite Htable.
      now apply names_are_keys. }
    rewrite Hknown. cbn [current_speed].
    generalize (filter (fun n0 => In n0 speed_names) rest).
    intros [| m l]; [reflexivity |].
    change (last (n :: m :: l)) with (last (m :: l)).
    destruct (last (m :: l)) eqn:Hlast; [reflexivity |].
    apply last_None in Hlast. discriminate Hlast.
  - assert (Hknown : known_speed st n = false).
    { unfold known_speed. apply bool_decide_eq_false. rewrite Htable.
      rewrite (unknown_speed _ Hnot). intros [x Hx]. discriminate Hx. }
    now rewrite Hknown.
Qed.

(** X2: after any sequence of set_speed calls the current speed is the last
    name of the sequence that is one of the five keys; unknown names are
    skipped, and without any known name the speed is still 'normal'. *)
Theorem viewer_last_known_speed_wins (bd : Q) (names : list pystr) :
  current_speed (set_speeds (init bd) names)
  = default (u "normal") (last (filter (fun n => In n speed_names) names)).
Proof. now rewrite set_speeds_last_known. Qed.

Lemma phase_position_lt (k bound : Z) (q : Q) :
  (q == inject_Z bound / 60)%Q ->
  (inject_Z k / inject_Z 60 < q)%Q <-> (k < bound)%Z.
Proof.
  intros Hq. rewrite Hq. unfold Qlt, Qdiv, Qmult, Qinv, inject_Z. simpl. lia.
Qed.

(** X3: detect_motion_phase depends on the step modulo 60 only (also for
    negative steps): Preparation for a remainder below 15, Execution below
    30, Follow-through below 45, Recovery otherwise; so it has period 60. *)
Theorem motion_phase_by_quarter (step : Z) :
  detect_motion_phase step
  = (if (step mod 60 <? 15)%Z then u "Preparation"
     else if (step mod 60 <? 30)%Z then u "Execution"
     else if (step mod 60 <? 45)%Z then u "Follow-through"
     else u "Recovery")
  /\ detect_motion_phase (step + 60) = detect_motion_phase step.
Proof.
  assert (Hchar : forall s,
    detect_motion_phase s
    = (if (s mod 60 <? 15)%Z then u "Preparation"
       else if (s mod 60 <? 30)%Z then u "Execution"
       else if (s mod 60 <? 45)%Z then u "Follow-through"
       else u "Recovery")).
  { intros s. unfold detect_motion_phase. cbv zeta.
    set (k := (s mod 60)%Z).
    pose proof (phase_position_lt k 15 (25 # 100)) as H15.
    pose proof (phase_position_lt k 30 (5 # 10)) as H30.
    pose proof (phase_position_lt k 45 (75 # 100)) as H45.
    specialize (H15 ltac:(reflexivity)).
    specialize (H30 ltac:(reflexivity)).
    specialize (H45 ltac:(reflexivity)).
    set (pp := (inject_Z k / inject_Z 60)%Q) in *.
    assert (Hge : forall q bound,
              ((pp < q)%Q <-> (k < bound)%Z) -> (q <= pp)%Q ->
              (bound <= k)%Z).
    { intros q bound Hiff Hle. apply Qle_not_lt in Hle.
      destruct (Z.lt_ge_cases k bound) as [Hlt | Hge]; [| exact Hge].
      exfalso. apply Hle, Hiff, Hlt. }
    destruct (Qlt_le_dec pp (25 # 100)) as [Ha | Ha].
    { apply H15 in Ha. destruct (Z.ltb_spec k 15); [reflexivity | lia]. }
    apply (Hge _ _ H15) in Ha.
    destruct (Qlt_le_dec pp (5 # 10)) as [Hb | Hb].
    { apply H30 in Hb. destruct (Z.ltb_spec k 15); [lia |].
      destruct (Z.ltb_spec k 30); [reflexivity | lia]. }
    apply (Hge _ _ H30) in Hb.
    destruct (Qlt_le_dec pp (75 # 100)) as [Hc | Hc].
    { apply H45 in Hc. destruct (Z.ltb_spec k 15); [lia |].
      destruct (Z.ltb_spec k 30); [lia |].
      destruct (Z.ltb_spec k 45); [reflexivity | lia]. }
    apply (Hge _ _ H45) in Hc.
    destruct (Z.ltb_spec k 15); [lia |].
    destruct (Z.ltb_spec k 30); [lia |].
    destruct (Z.ltb_spec k 45); [lia | reflexivity]. }
  split; [apply Hchar |].
  rewrite !Hchar.
  replace ((step + 60) mod 60)%Z with (step mod 60)%Z; [reflexivity |].
  symmetry. apply (Z.mod_add step 1 60). lia.
Qed.

(** X4: for a playback of at least one step the three default analysis
    points (n//4, n//2, 3n//4) are steps of the loop, in ascending order;
    so are the two points (d//3, 2d//3) of the guided sessions. *)
Theorem analysis_points_in_range (n_steps : Z) :
  (1 <= n_steps)%Z ->
  Forall (in_range n_steps) (default_analysis_points n_steps)
  /\ Forall (in_range n_steps) (session_analysis_points n_steps)
  /\ (n_steps / 4 <= n_steps / 2 <= 3 * n_steps / 4)%Z
  /\ (n_steps / 3 <= 2 * n_steps / 3)%Z.
Proof.
  intros Hn. unfold default_analysis_points, session_analysis_points, in_range.
  repeat split; repeat constructor;
    Z.to_euclidean_division_equations; lia.
Qed.

Lemma analysis_points_in_range_witness :
  Forall (in_range 300) (default_analysis_points 300).
Proof. apply (analysis_points_in_range 300). lia. Defined.

End SlowMotionAnalysisFacts.

(* --------------------------------------------------------------------- *)
(** ** More about InteractiveController                                    *)
(* --------------------------------------------------------------------- *)

Section ControlSessionFacts.
Import Controller ControlSession.

(** Case analysis over the branches of update_action. *)
Ltac update_action_cases :=
  unfold update_action;
  repeat case_decide;
  repeat match goal with
         | |- context [(?a <? ?b)%nat] => destruct (Nat.ltb_spec a b)
         end.

Lemma set_joint_shape (st : t) (i : nat) (f : Q -> Q) :
  let st' := (set_joint st i f).1 in
  length (current_action st') = length (current_action st)
  /\ action_size st' = action_size st
  /\ control_mode st' = control_mode st
  /\ control_speed st' = control_speed st.
Proof.
  unfold set_joint. destruct (current_action st !! i); simpl;
    rewrite ?length_insert; auto.
Qed.

Lemma update_action_shape (st : t) (key : pystr) :
  let st' := (update_action st key).1 in
  length (current_action st') = length (current_action st)
  /\ action_size st' = action_size st
  /\ control_mode st' = control_mode st.
Proof.
  update_action_cases;
    try (destruct (set_joint_shape st 0 (fun x => Qmin 1 (x + control_speed st)))
           as (? & ? & ? & ?); tauto);
    try (cbn; rewrite ?repeat_length; tauto);
    match goal with
    | |- context [set_joint st ?i ?f] =>
        destruct (set_joint_shape st i f) as (? & ? & ? & ?); tauto
    end.
Qed.

(** X5: whatever keys are typed, the action vector keeps the length given
    by __init__ and control_mode stays "individual": the mode keys 1 to 4
    and the exit key x listed by show_controls are not handled by
    update_action, which returns False for them and changes nothing. *)
Theorem controller_shape_is_fixed (n : nat) (keys : list pystr) :
  let st := update_actions (init n) keys in
  length (current_action st) = n
  /\ action_size st = n
  /\ control_mode st = u "individual"
  /\ Forall (fun key => forall st0, update_action st0 key = (st0, Ok false))
            (map u ["1"; "2"; "3"; "4"; "x"]).
Proof.
  cbv zeta. split; [| split; [| split]].
  4: { repeat constructor; intros st0; reflexivity. }
  all: assert (Hinv : forall st0,
         let st := update_actions st0 keys in
         length (current_action st) = length (current_action st0)
         /\ action_size st = action_size st0
         /\ control_mode st = control_mode st0)
    by (induction keys as [| key keys IH]; intros st0;
        [ repeat split
        | cbv zeta; unfold update_actions; cbn [fold_left];
          fold (update_actions (update_action st0 key).1 keys);
          destruct (IH (update_action st0 key).1) as (H1 & H2 & H3);
          destruct (update_action_shape st0 key) as (H4 & H5 & H6);
          cbv zeta in *; repeat split; congruence ]).
  all: destruct (Hinv (init n)) as (H1 & H2 & H3); cbv zeta in *.
  - rewrite H1. apply repeat_length.
  - exact H2.
  - exact H3.
Qed.

Lemma set_joint_in_range (st : t) (i : nat) (f : Q -> Q) :
  (i < length (current_action st))%nat ->
  exists x, current_action st !! i = Some x
            /\ set_joint st i f
               = (mk (action_size st) (<[i := f x]> (current_action st))
                     (control_mode st) (control_speed st), Ok true).
Proof.
  intros Hi. destruct (lookup_lt_is_Some_2 _ _ Hi) as [x Hx].
  exists x. split; [exact Hx |]. unfold set_joint. now rewrite Hx.
Qed.

(** X6: on a controller with at least three joints update_action never
    raises, whatever the key; when it returns False the controller is
    unchanged, and it returns False for every key outside the fourteen it
    knows. *)
Theorem update_action_never_raises (st : t) (key : pystr) :
  (3 <= length (current_action st))%nat ->
  exists handled : bool,
    (update_action st key).2 = Ok handled
    /\ (handled = false -> (update_action st key).1 = st)
    /\ (~ In key handled_keys -> handled = false).
Proof.
  intros Hlen.
  assert (Hjoint : forall i f, (i < length (current_action st))%nat ->
            exists st', set_joint st i f = (st', Ok true)).
  { intros i f Hi. destruct (set_joint_in_range st i f Hi) as (x & _ & Heq).
    eexists. exact Heq. }
  assert (Hkey : forall k, In k handled_keys ->
            key = k -> ~ In key handled_keys -> False)
    by (intros k Hk -> Hnot; exact (Hnot Hk)).
  update_action_cases;
    try (match goal with
         | |- context [set_joint st ?i ?f] =>
             destruct (Hjoint i f ltac:(lia)) as [st' Heq]; rewrite Heq
         end);
    try (exists true; split; [reflexivity | split; [discriminate |]];
         intros Hnot; exfalso; apply Hnot; subst key;
         unfold handled_keys; simpl; tauto);
    exists false; repeat split.
Qed.

Lemma update_action_never_raises_witness :
  exists handled : bool,
    (update_action (init 23) (u "x")).2 = Ok handled
    /\ (handled = false -> (update_action (init 23) (u "x")).1 = init 23)
    /\ (~ In (u "x") handled_keys -> handled = false).
Proof. apply (update_action_never_raises (init 23) (u "x")). simpl. lia. Defined.

Lemma set_joint_other (st : t) (i j : nat) (f : Q -> Q) :
  i <> j ->
  current_action (set_joint st i f).1 !! j = current_action st !! j.
Proof.
  intros Hij. unfold set_joint.
  destruct (current_action st !! i); simpl; [| reflexivity].
  now apply list_lookup_insert_ne.
Qed.




Lemma lookup_zeros (n i : nat) (x : Q) :
  repeat 0%Q n !! i = Some x -> x = 0%Q.
Proof.
  intros H. apply (repeat_spec n 0%Q x). apply list_elem_of_In.
  eapply list_elem_of_lookup_2. exact H.
Qed.

(** Joint 2 is not above its rest position. *)
Lemma joint2_step_down (x speed : Q) :
  (x <= 0)%Q -> speed_in_range speed -> (Qmax (-1) (x - speed) <= 0)%Q.
Proof. intros Hx [Hlo Hhi]. apply Q.max_lub; lra. Qed.

Lemma update_action_joint2 (st : t) (key : pystr) :
  key <> u "q" -> bounded st -> joint2_not_raised st ->
  joint2_not_raised (update_action st key).1.
Proof.
  intros Hq [Hact Hspeed] H2. unfold joint2_not_raised in *.
  update_action_cases; subst; try congruence; try exact H2;
    try (intros x; rewrite set_joint_other by discriminate; apply H2).
  - unfold set_joint. destruct (current_action st !! 2%nat) as [x |] eqn:Hx;
      simpl.
    + intros y. rewrite list_lookup_insert_eq
        by (now apply lookup_lt_Some in Hx).
      intros [= <-]. apply joint2_step_down; [now apply H2 | exact Hspeed].
    + intros y Hy. rewrite Hx in Hy. discriminate Hy.
  - intros x Hx. simpl in Hx. rewrite (lookup_zeros _ _ _ Hx). lra.
Qed.

Lemma session_command_invariant (st : t) (user_input : pystr) :
  bounded st -> joint2_not_raised st ->
  bounded (session_command st user_input).1
  /\ joint2_not_raised (session_command st user_input).1.
Proof.
  intros Hb H2. unfold session_command.
  destruct (bool_decide (user_input ∈ map u ["quit"; "exit"; "q"])) eqn:Hquit;
    [now split |].
  destruct (bool_decide (user_input = u "help")
            || bool_decide (user_input = u "h")); [now split |].
  destruct (bool_decide (user_input = u "0")
            || bool_decide (user_input = u "reset")).
  { simpl. split.
    - split; [apply zeros_in_range | apply Hb].
    - intros x Hx. simpl in Hx. rewrite (lookup_zeros _ _ _ Hx). lra. }
  destruct (bool_decide
              (user_input ∈ map u ["w"; "s"; "a"; "d"; "q"; "e"; "r"; "f";
                                   "t"; "g"; "+"; "-"]));
    [| destruct (bool_decide (user_input = u "")); now split].
  assert (Hq : user_input <> u "q").
  { intros ->. apply bool_decide_eq_false in Hquit. apply Hquit.
    simpl. set_solver. }
  pose proof (update_action_bounded st user_input Hb) as Hb'.
  pose proof (update_action_joint2 st user_input Hq Hb H2) as H2'.
  destruct (update_action st user_input) as [st' [ok | e]]; simpl in *;
    [now split |].
  destruct (bool_decide (exn_class e ∈ _)); [now split |].
  destruct (exn_is_Exception e); now split.
Qed.

(** X8: in the interactive session the input 'q' always ends the session,
    so update_action is never called with 'q': over any sequence of typed
    commands joint 2 never rises above 0 (only 'e' moves it, downwards),
    and the action and speed bounds of update_action are kept by the whole
    command dispatch, reset included. *)
Theorem session_never_raises_joint2 (n : nat) (inputs : list pystr) :
  (session_command (init n) (u "q")).2 = Quit
  /\ bounded (session (init n) inputs)
  /\ forall x, current_action (session (init n) inputs) !! 2%nat = Some x ->
               (x <= 0)%Q.
Proof.
  split; [reflexivity |].
  assert (Hinit : bounded (init n) /\ joint2_not_raised (init n)).
  { split; [apply bounded_init |]. intros x Hx. simpl in Hx.
    rewrite (lookup_zeros _ _ _ Hx). lra. }
  revert Hinit. generalize (init n) as st.
  induction inputs as [| user_input rest IH]; intros st [Hb H2];
    [now split |].
  destruct (session_command_invariant st user_input Hb H2) as [Hb' H2'].
  cbn [session].
  destruct (session_command st user_input) as [st' step]; simpl in *.
  destruct step; first [now split | now apply IH].
Qed.

End ControlSessionFacts.

(* --------------------------------------------------------------------- *)
(** ** RobotTester                                                         *)
(* --------------------------------------------------------------------- *)

Section RobotTesterFacts.
Import RobotTester.

Lemma count_results_app s l1 l2 :
  count_results s (l1 ++ l2) = (count_results s l1 + count_results s l2)%nat.
Proof. unfold count_results. now rewrite List.filter_app, length_app. Qed.

Lemma run_test_consistent st test_name outcome d :
  consistent st -> consistent (run_test st test_name outcome d).1.
Proof.
  intros (Hp & Hf & Hlen). unfold run_test.
  destruct outcome as [result | e];
    [destruct (truthy result) | destruct (exn_is_Exception e)];
    try (now repeat split);
    unfold consistent, count_status in *; cbn [fst test_results passed failed];
    rewrite !count_results_app, length_app;
    change (count_results (u "PASSED") [_]) with 1%nat
      || change (count_results (u "PASSED") [_]) with 0%nat;
    change (count_results (u "FAILED") [_]) with 1%nat
      || change (count_results (u "FAILED") [_]) with 0%nat;
    change (count_results (u "ERROR") [_]) with 1%nat
      || change (count_results (u "ERROR") [_]) with 0%nat;
    cbn [length]; lia.
Qed.

Lemma run_tests_consistent runs : forall st,
  consistent st -> consistent (run_tests st runs).
Proof.
  induction runs as [| [[test_name outcome] d] rest IH]; intros st Hc;
    [exact Hc |].
  cbn [run_tests].
  pose proof (run_test_consistent st test_name outcome d Hc) as Hc'.
  destruct (run_test st test_name outcome d) as [st' [ok | e]]; simpl in Hc';
    [now apply IH | exact Hc'].
Qed.

(** X9: after any sequence of run_test calls on a fresh RobotTester the
    counters agree with the recorded results: passed is the number of
    results with status PASSED, failed the number with status FAILED or
    ERROR, and passed + failed is the number of results.  This holds even
    when a test lets an exception escape (nothing is recorded for it). *)
Theorem tester_counters_consistent (runs : list test_run) :
  let st := run_tests init runs in
  passed st = count_status (u "PASSED") st
  /\ failed st = (count_status (u "FAILED") st
                  + count_status (u "ERROR") st)%nat
  /\ (passed st + failed st)%nat = length (test_results st).
Proof.
  apply (run_tests_consistent runs init). repeat split.
Qed.

Lemma run_test_caught st test_name outcome d :
  match outcome with
  | Ok _ => True
  | Raise e => exn_is_Exception e = true
  end ->
  exists st' ok,
    run_test st test_name outcome d = (st', Ok ok)
    /\ map name (test_results st') = map name (test_results st) ++ [test_name]
    /\ passed st'
       = (passed st
          + (if run_passes (test_name, outcome, d) then 1 else 0))%nat.
Proof.
  intros Hcaught. unfold run_test, run_passes. cbn [fst snd].
  destruct outcome as [result | e];
    [destruct (truthy result) | rewrite Hcaught];
    eexists _, _; (split; [reflexivity |]);
    cbn [test_results passed]; rewrite map_app; (split; [reflexivity | lia]).
Qed.

Lemma run_tests_all_caught runs : forall st,
  all_caught runs ->
  map name (test_results (run_tests st runs))
  = map name (test_results st) ++ map (fun run : test_run => run.1.1) runs
  /\ passed (run_tests st runs)
     = (passed st + length (List.filter run_passes runs))%nat.
Proof.
  induction runs as [| [[test_name outcome] d] rest IH]; intros st Hall.
  - cbn. rewrite app_nil_r. split; [reflexivity | lia].
  - inversion Hall as [| run runs' Hrun Hrest]; subst. cbn [fst snd] in Hrun.
    destruct (run_test_caught st test_name outcome d Hrun)
      as (st' & ok & Hrt & Hnames & Hpassed).
    cbn [run_tests]. rewrite Hrt.
    destruct (IH st' Hrest) as [Hn Hp]. rewrite Hn, Hp, Hnames, Hpassed.
    rewrite <- app_assoc. split; [reflexivity |].
    cbn [List.filter].
    destruct (run_passes (test_name, outcome, d)); cbn [length]; lia.
Qed.

(** X10: when no test lets an exception other than an Exception escape,
    a suite records one result per test, in the order the tests were run,
    and passed is the number of tests whose function returned a true value
    (a test that returns a false value or raises counts as failed). *)
Theorem tester_records_every_test (runs : list test_run) :
  all_caught runs ->
  let st := run_tests init runs in
  map name (test_results st) = map (fun run : test_run => run.1.1) runs
  /\ passed st = length (List.filter run_passes runs)
  /\ failed st = (length runs - length (List.filter run_passes runs))%nat.
Proof.
  intros Hall st.
  destruct (run_tests_all_caught runs init Hall) as [Hnames Hpassed].
  assert (Hc : consistent st)
    by (apply (run_tests_consistent runs init); repeat split).
  destruct Hc as (_ & _ & Hlen).
  fold st in Hnames, Hpassed. cbn in Hnames, Hpassed.
  split; [exact Hnames | split; [exact Hpassed |]].
  apply (f_equal (@length _)) in Hnames. rewrite !length_map in Hnames. lia.
Qed.

Lemma tester_records_every_test_witness :
  let runs := [(u "Basic Robot Creation", Ok (VBool true), 1 # 2);
               (u "Environment Reset", Raise (RuntimeError (u "no display")),
                1 # 4);
               (u "Environment Step", Ok (VBool false), 1 # 8)]%Q in
  passed (run_tests init runs) = 1%nat.
Proof.
  cbv zeta.
  apply (tester_records_every_test
           [(u "Basic Robot Creation", Ok (VBool true), 1 # 2);
            (u "Environment Reset", Raise (RuntimeError (u "no display")),
             1 # 4);
            (u "Environment Step", Ok (VBool false), 1 # 8)]%Q).
  repeat constructor.
Defined.

Lemma not_passed_spec (r : test_result) :
  not_passed r
  = bool_decide (status r = u "FAILED") || bool_decide (status r = u "ERROR").
Proof.
  unfold not_passed.
  destruct (decide (status r = u "FAILED")) as [HF | HF];
    destruct (decide (status r = u "ERROR")) as [HE | HE];
    rewrite ?(bool_decide_eq_true_2 _ HF), ?(bool_decide_eq_false_2 _ HF),
      ?(bool_decide_eq_true_2 _ HE), ?(bool_decide_eq_false_2 _ HE);
    cbn [orb].
  1-3: apply bool_decide_eq_true_2; cbn [map];
       rewrite !elem_of_cons; tauto.
  apply bool_decide_eq_false_2. cbn [map].
  rewrite !elem_of_cons, elem_of_nil. tauto.
Qed.

Lemma not_passed_count (results : list test_result) :
  length (List.filter not_passed results)
  = (count_results (u "FAILED") results
     + count_results (u "ERROR") results)%nat.
Proof.
  unfold count_results.
  induction results as [| r results IH]; [reflexivity |].
  cbn [List.filter]. rewrite not_passed_spec.
  destruct (decide (status r = u "FAILED")) as [HF | HF];
    destruct (decide (status r = u "ERROR")) as [HE | HE];
    rewrite ?(bool_decide_eq_true_2 _ HF), ?(bool_decide_eq_false_2 _ HF),
      ?(bool_decide_eq_true_2 _ HE), ?(bool_decide_eq_false_2 _ HE);
    cbn [orb length]; try lia.
  rewrite HF in HE. discriminate HE.
Qed.

Lemma success_rate_defined (st : t) :
  exists rate, success_rate st = Ok rate /\ (0 <= rate)%Q /\ (rate <= 100)%Q.
Proof.
  unfold success_rate. cbv zeta.
  destruct (Nat.ltb_spec 0 (passed st + failed st)) as [Hpos | Hzero].
  - unfold true_div.
    set (p := inject_Z (Z.of_nat (passed st))).
    set (total := inject_Z (Z.of_nat (passed st + failed st))).
    assert (Htotal : (0 < total)%Q).
    { unfold total. rewrite <- (Zlt_Qlt 0). lia. }
    assert (Hp : (0 <= p)%Q /\ (p <= total)%Q).
    { unfold p, total. rewrite <- (Zle_Qle 0), <- Zle_Qle. lia. }
    destruct (Qeq_bool total 0) eqn:Hz.
    { apply Qeq_bool_eq in Hz. rewrite Hz in Htotal.
      exfalso. apply (Qlt_irrefl 0 Htotal). }
    cbn [mbind res_bind]. eexists. split; [reflexivity |].
    assert (Hlo : (0 <= p / total)%Q).
    { apply Qle_shift_div_l; [exact Htotal | lra]. }
    assert (Hhi : (p / total <= 1)%Q).
    { apply Qle_shift_div_r; [exact Htotal | lra]. }
    split; lra.
  - exists 0%Q. repeat split; lra.
Qed.

(** X11: print_summary never divides by zero: with no test run the rate
    shown is 0, and in general it lies between 0 and 100.  After a suite
    it prints six summary lines and, when a test failed, the heading and
    exactly one line per failed or erroneous test. *)
Theorem summary_is_always_printed (format_1f : Q -> pystr)
    (runs : list test_run) :
  let st := run_tests init runs in
  success_rate init = Ok 0%Q
  /\ exists rate lines,
       success_rate st = Ok rate /\ (0 <= rate)%Q /\ (rate <= 100)%Q
       /\ print_summary format_1f st = Ok lines
       /\ length lines
          = (6 + (if (0 <? failed st)%nat then 1 + failed st else 0))%nat.
Proof.
  intros st. split; [reflexivity |].
  destruct (success_rate_defined st) as (rate & Hrate & Hlo & Hhi).
  exists rate. eexists. split; [exact Hrate | split; [exact Hlo |]].
  split; [exact Hhi |].
  unfold print_summary. cbv zeta. rewrite Hrate. cbn [mbind res_bind].
  split; [reflexivity |].
  rewrite length_app. cbn [length].
  destruct (0 <? failed st)%nat; [| reflexivity].
  cbn [length]. rewrite length_map, not_passed_count.
  assert (Hc : consistent st)
    by (apply (run_tests_consistent runs init); repeat split).
  destruct Hc as (_ & Hf & _). unfold count_status in Hf. lia.
Qed.

End RobotTesterFacts.

(* --------------------------------------------------------------------- *)
(** ** More about the recorders                                            *)
(* --------------------------------------------------------------------- *)

Section ExtendedRecorderPlanFacts.
Import ExtendedRecorderPlan.

(** X12: the recording plan loses no frame to the integer division: for
    every integer duration, the number of episodes (2 up to 15 seconds, 3
    above) times the steps per episode is exactly 30 frames per second of
    the duration. *)
Theorem recording_plan_is_exact (duration : Z) :
  let '(episodes, steps_per_episode) := recording_plan duration in
  (episodes = (if (duration <=? 15)%Z then 2 else 3)%Z)
  /\ (episodes * steps_per_episode = duration * 30)%Z.
Proof.
  unfold recording_plan. cbv zeta. split; [reflexivity |].
  destruct (duration <=? 15)%Z.
  - replace (duration * 30)%Z with (duration * 15 * 2)%Z by lia.
    rewrite Z.div_mul by lia. lia.
  - replace (duration * 30)%Z with (duration * 10 * 3)%Z by lia.
    rewrite Z.div_mul by lia. lia.
Qed.

Lemma print_failed_trace (l : list pystr) : forall i w,
  print_failed i l w
  = (Ok tt, w, imap (fun k dataset => listing_line (i + k) dataset) l).
Proof.
  induction l as [| dataset l IH]; intros i w; [reflexivity |].
  cbn [print_failed imap]. unfold_M. rewrite IH. cbn [app].
  f_equal. f_equal.
  - unfold listing_line. rewrite Nat.add_0_r, <- !app_assoc. reflexivity.
  - apply imap_ext. intros k x _. unfold compose. f_equal. lia.
Qed.

(** X13: the list of unavailable datasets is cut to 20 numbered lines and
    the rest is counted: nothing is printed for an empty list; otherwise
    the heading, one line per dataset for the first 20 (numbered from 1),
    and, only when more than 20 failed, a last line giving how many were
    left out; shown and left out add up to the number of failures. *)
Theorem unavailable_report_is_cut_at_20 (failed_datasets : list pystr)
    (w : world) :
  let n := length failed_datasets in
  let shown := firstn 20 failed_datasets in
  unavailable_report failed_datasets w
  = (Ok tt, w,
     match failed_datasets with
     | [] => []
     | _ =>
         [Out (nl ++ u "❌ UNAVAILABLE DATASETS:" ++ nl);
          Out (str_repeat (u "-") 40 ++ nl)]
         ++ imap (fun k dataset => listing_line (1 + k) dataset) shown
         ++ (if (20 <? n)%nat
             then [Out (u "    ... and " ++ str_of_nat (n - 20) ++ u " more"
                        ++ nl)]
             else [])
     end)
  /\ (length shown <= 20)%nat
  /\ (length shown + (n - 20) = n)%nat.
Proof.
  cbv zeta. split.
  - destruct failed_datasets as [| d l]; [reflexivity |].
    unfold unavailable_report. set (failed := d :: l). unfold_M.
    rewrite print_failed_trace.
    assert (Hmin : firstn (Nat.min 20 (length failed)) failed
                   = firstn 20 failed).
    { destruct (Nat.le_ge_cases 20 (length failed)) as [Hle | Hge].
      - now rewrite Nat.min_l.
      - rewrite Nat.min_r by exact Hge.
        rewrite !firstn_all2 by lia. reflexivity. }
    rewrite Hmin.
    destruct (Nat.ltb_spec 20 (length failed)) as [Hlt | Hge].
    + rewrite Nat.min_l by lia.
      destruct (Nat.ltb_spec 20 (length failed)); [| lia].
      rewrite <- !app_assoc. reflexivity.
    + rewrite Nat.min_r by lia.
      destruct (Nat.ltb_spec (length failed) (length failed)); [lia |].
      rewrite <- !app_assoc. reflexivity.
  - rewrite length_firstn. lia.
Qed.

End ExtendedRecorderPlanFacts.

(* --------------------------------------------------------------------- *)
(** ** More about the background colour                                    *)
(* --------------------------------------------------------------------- *)

Section BackgroundMoreFacts.
Import Background.

Lemma set_background_color_run (color_name : pystr)
    (environ : gmap pystr pystr) :
  let bg_color := default (u "0 0 0") (colors !! color_name) in
  set_background_color color_name environ
  = Ok (<[MUJOCO_GL_BACKGROUND := bg_color]> environ,
        u "🎨 Background set to " ++ color_name ++ u " (" ++ bg_color
        ++ u ")" ++ nl).
Proof. reflexivity. Qed.

(** X16: set_background_color writes MUJOCO_GL_BACKGROUND and nothing
    else: every other environment variable keeps its value, the call never
    raises, and of two calls in a row only the last one counts. *)
Theorem background_last_call_wins (first second : pystr)
    (environ : gmap pystr pystr) :
  exists environ1 line1 environ2 line2,
    set_background_color first environ = Ok (environ1, line1)
    /\ set_background_color second environ1 = Ok (environ2, line2)
    /\ set_background_color second environ = Ok (environ2, line2)
    /\ forall variable, variable <> MUJOCO_GL_BACKGROUND ->
         environ2 !! variable = environ !! variable.
Proof.
  pose proof (set_background_color_run first environ) as Hrun1.
  pose proof (set_background_color_run second environ) as Hrun2.
  pose proof (set_background_color_run second
                (<[MUJOCO_GL_BACKGROUND
                   := default (u "0 0 0") (colors !! first)]> environ))
    as Hrun12.
  cbv zeta in Hrun1, Hrun2, Hrun12.
  rewrite insert_insert_eq in Hrun12.
  eexists _, _, _, _.
  split; [exact Hrun1 | split; [exact Hrun12 | split; [exact Hrun2 |]]].
  intros variable Hne. now rewrite lookup_insert_ne.
Qed.

End BackgroundMoreFacts.

(* --------------------------------------------------------------------- *)
(** ** The three step unpackings side by side                              *)
(* --------------------------------------------------------------------- *)

Section StepUnpackFacts.
Import StepUnpack.

Lemma unpack_step_shape (step_result : list value) :
  match step_result with
  | [a; b; c; d; e] =>
      unpack_step step_result = Ok (mk_step_vars a b c d e)
  | [a; b; c; d] =>
      unpack_step step_result = Ok (mk_step_vars a b c (VBool false) d)
  | a :: b :: c :: _ =>
      unpack_step step_result
      = Ok (mk_step_vars a b c (VBool false) (VDict []))
  | _ => unpack_step step_result = Raise (unpack_error 3 (length step_result))
  end.
Proof.
  destruct step_result as [| a [| b [| c [| d [| e [| f rest]]]]]];
    reflexivity.
Qed.

Lemma unpack_step_quick_test_shape (result : list value) :
  match result with
  | [a; b; c; d; e] =>
      unpack_step_quick_test result = Ok (mk_step_vars a b c d e)
  | [a; b; c; d] =>
      unpack_step_quick_test result
      = Ok (mk_step_vars a b c (VBool false) d)
  | _ => unpack_step_quick_test result = Raise (unpack_error 4 (length result))
  end.
Proof.
  destruct result as [| a [| b [| c [| d [| e [| f rest]]]]]];
    reflexivity.
Qed.

(** X17: the unpacking of lesson_1_8_test_utilities succeeds exactly on
    results of length at least 3, that of lesson_1_1_quick_test exactly on
    lengths 4 and 5, and wherever the latter succeeds the former binds the
    same five values; truncated is taken from the result only when its
    length is 5. *)
Theorem unpackings_agree (step_result : list value) :
  ((exists vars, unpack_step step_result = Ok vars)
   <-> (3 <= length step_result)%nat)
  /\ ((exists vars, unpack_step_quick_test step_result = Ok vars)
      <-> (length step_result = 4 \/ length step_result = 5)%nat)
  /\ (forall vars, unpack_step_quick_test step_result = Ok vars ->
        unpack_step step_result = Ok vars)
  /\ (forall vars, unpack_step step_result = Ok vars ->
        length step_result <> 5%nat -> sv_truncated vars = VBool false).
Proof.
  pose proof (unpack_step_shape step_result) as H8.
  pose proof (unpack_step_quick_test_shape step_result) as H1.
  destruct step_result as [| a [| b [| c [| d [| e [| f rest]]]]]];
    rewrite H8, H1; cbn [length];
    (split; [| split; [| split]]).
  all: try (split; [intros [vars Hv]; discriminate Hv | intros; lia]).
  all: try (split; [intros _; lia | intros _; eexists; reflexivity]).
  all: try (split; [intros _; auto | intros _; eexists; reflexivity]).
  all: try (intros vars Hv; discriminate Hv).
  all: try (intros vars Hv; exact Hv).
  all: try (intros vars Hv Hne; discriminate Hv).
  all: try (intros vars Hv Hne; injection Hv as <-; reflexivity).
  all: try (intros vars Hv Hne; now elim Hne).
  all: try (split; [intros [vars Hv]; discriminate Hv
                   | intros [H | H]; discriminate H]).
Qed.

End StepUnpackFacts.

(* --------------------------------------------------------------------- *)
(** ** Reading observations                                                *)
(* --------------------------------------------------------------------- *)

Section MotionDataFacts.
Import MotionData.

(** X19: whatever the length of the observation, collect_motion_data
    stores a velocity row of exactly 10 numbers and a position row of at
    most 10: the first 10 entries of the observation, or all of it when it
    has fewer. *)
Theorem stored_rows_have_bounded_length (obs : list Q) :
  length (velocities_row obs) = 10%nat
  /\ length (positions_row obs) = Nat.min 10 (length obs)
  /\ positions_row obs = firstn 10 obs
  /\ ((20 <= length obs)%nat ->
      velocities_row obs = firstn 10 (skipn 10 obs)).
Proof.
  unfold velocities_row, positions_row, slice.
  destruct (Nat.leb_spec 20 (length obs)) as [H20 | H20];
    destruct (Nat.leb_spec 10 (length obs)) as [H10 | H10];
    cbn [Nat.sub skipn];
    rewrite ?length_firstn, ?length_skipn, ?repeat_length;
    repeat split; try lia; try reflexivity;
    try (now rewrite firstn_all2 by lia).
Qed.

Lemma obs_item_or_zero_defined (obs : list Q) (i : nat) :
  exists x, obs_item_or_zero obs i = Ok x.
Proof.
  unfold obs_item_or_zero, obs_item.
  destruct (Nat.ltb_spec i (length obs)) as [Hlt | Hge]; [| now exists 0%Q].
  destruct (nth_error obs i) as [x |] eqn:Hx; [now exists x |].
  apply nth_error_None in Hx. lia.
Qed.

Lemma joint_positions_entry_defined (obs : list Q) :
  exists p, joint_positions_entry obs = Ok p.
Proof.
  unfold joint_positions_entry.
  destruct (6 <=? length obs)%nat; [| now eexists].
  destruct (obs_item_or_zero_defined obs 0) as [hip ->].
  destruct (obs_item_or_zero_defined obs 3) as [knee ->].
  now eexists.
Qed.

Lemma joint_velocity_entry_defined (obs : list Q) :
  exists v, joint_velocity_entry obs = Ok v /\ (0 <= v)%Q.
Proof.
  unfold joint_velocity_entry.
  destruct (12 <=? length obs)%nat; [| exists 0%Q; split; [reflexivity | lra]].
  destruct (obs_item_or_zero_defined obs 6) as [vel1 ->].
  destruct (obs_item_or_zero_defined obs 9) as [vel2 ->].
  eexists. split; [reflexivity |].
  pose proof (Qabs_nonneg vel1). pose proof (Qabs_nonneg vel2).
  apply Qle_shift_div_l; lra.
Qed.

Lemma center_of_mass_entry_defined (obs : list Q) :
  exists c, center_of_mass_entry obs = Ok c.
Proof.
  unfold center_of_mass_entry.
  destruct (3 <=? length obs)%nat; [| now eexists].
  apply obs_item_or_zero_defined.
Qed.

Lemma deque_append_room {A} (maxlen : nat) (d : list A) (x : A) :
  (length d < maxlen)%nat -> deque_append maxlen d x = d ++ [x].
Proof.
  intros Hroom. unfold deque_append. rewrite length_app. cbn [length].
  replace (length d + 1 - maxlen)%nat with 0%nat by lia. reflexivity.
Qed.

Lemma energy_entry_last (d : list Q) (v : Q) :
  energy_entry (d ++ [v]) = (v * v)%Q.
Proof. unfold energy_entry. now rewrite last_snoc. Qed.

Lemma record_step_recorded (n_steps step k : nat) (data : live_data)
    (obs : list Q) :
  recorded k data -> (k < n_steps)%nat ->
  exists data', record_step n_steps step data obs = Ok data'
                /\ recorded (S k) data'.
Proof.
  intros (Hp & Hv & Hc & He & Ht & Hvel & Hen) Hroom. unfold record_step.
  cbv zeta.
  destruct (joint_positions_entry_defined obs) as [p ->].
  destruct (joint_velocity_entry_defined obs) as (v & -> & Hv0).
  destruct (center_of_mass_entry_defined obs) as [c ->].
  cbn [mbind res_bind]. eexists. split; [reflexivity |].
  rewrite !deque_append_room by lia. rewrite energy_entry_last.
  unfold recorded. cbn [joint_positions joint_velocities center_of_mass
                        energy_metrics time_steps].
  rewrite !length_app. cbn [length].
  repeat split; try lia.
  - apply Forall_app. split; [exact Hvel | now repeat constructor].
  - apply Forall_app. split; [exact Hen |]. repeat constructor.
    now apply Qmult_le_0_compat.
Qed.

Lemma record_steps_recorded (observations : list (list Q)) :
  forall n_steps step k data,
    recorded k data -> (k + length observations <= n_steps)%nat ->
    exists data', record_steps n_steps step data observations = Ok data'
                  /\ recorded (k + length observations) data'.
Proof.
  induction observations as [| obs rest IH]; intros n_steps step k data Hr Hn.
  - exists data. cbn. rewrite Nat.add_0_r. now split.
  - cbn [length] in Hn.
    destruct (record_step_recorded n_steps step k data obs Hr ltac:(lia))
      as (data1 & Hstep & Hr1).
    destruct (IH n_steps (S step) (S k) data1 Hr1 ltac:(lia))
      as (data' & Hrest & Hr').
    exists data'. cbn [record_steps]. rewrite Hstep. cbn [mbind res_bind].
    split; [exact Hrest |]. cbn [length].
    now replace (k + S (length rest))%nat with (S k + length rest)%nat by lia.
Qed.

(** X18: the live data collection never indexes an observation out of
    range, whatever the lengths of the observations it meets: over a run
    of n steps each of the five deques receives exactly n entries (short
    observations give zeros), and no stored velocity or energy is
    negative. *)
Theorem live_recording_never_raises (observations : list (list Q)) :
  exists data,
    record_steps (length observations) 0 no_data observations = Ok data
    /\ recorded (length observations) data.
Proof.
  destruct (record_steps_recorded observations (length observations) 0 0
              no_data) as (data & Hrun & Hr).
  - repeat split; constructor.
  - lia.
  - now exists data.
Qed.

End MotionDataFacts.

(* --------------------------------------------------------------------- *)
(** ** The loop of g1_dance_recorder.main                                  *)
(* --------------------------------------------------------------------- *)

Section DanceRecorderMainFacts.
Import DanceRecorderMain.

Variable try_block : pystr -> M value.
Hypothesis try_block_sound : forall dataset,
  sound (fun _ => True) (try_block dataset).

Lemma record_dance_dataset_returns (dataset : pystr) :
  returns (fun _ => True)
          (DanceRecorder.record_dance_dataset dataset (try_block dataset)).
Proof.
  unfold DanceRecorder.record_dance_dataset.
  apply returns_bind; [apply returns_print | intros _].
  apply returns_try_except; [apply try_block_sound | intros e].
  unfold DanceRecorder.on_error.
  apply returns_bind; [apply returns_print | intros _; apply returns_ret].
Qed.

Lemma record_dance_dataset_run (dataset : pystr) (w : world) :
  raises_only_Exception w ->
  exists video_file w' t,
    DanceRecorder.record_dance_dataset dataset (try_block dataset) w
    = (Ok video_file, w', t)
    /\ raises_only_Exception w'.
Proof.
  intros Hw. destruct (record_dance_dataset_returns dataset) as [Hs Hr].
  destruct (Hs w Hw) as (Hrest & _ & _). destruct (Hr w Hw) as [v Hv].
  unfold result_of, rest_of in *.
  destruct (DanceRecorder.record_dance_dataset dataset (try_block dataset) w)
    as [[r w'] t]; simpl in *. subst r. now exists v, w', t.
Qed.

Lemma record_all_run (datasets : list pystr) :
  forall i total successful failed w,
    raises_only_Exception w ->
    exists recorded not_recorded w' t,
      record_all try_block i total datasets successful failed w
      = (Ok (successful ++ recorded, failed ++ not_recorded), w', t)
      /\ raises_only_Exception w'
      /\ map fst recorded ++ not_recorded ≡ₚ datasets
      /\ Forall (fun entry => RobotTester.truthy entry.2 = true) recorded.
Proof.
  induction datasets as [| dataset rest IH];
    intros i total successful failed w Hw.
  - exists [], [], w, []. cbn. rewrite !app_nil_r. repeat split; auto.
  - destruct (record_dance_dataset_run dataset w Hw)
      as (video_file & w1 & t1 & Hrun & Hw1).
    cbn [record_all]. unfold_M. rewrite Hrun. cbv beta iota.
    destruct (RobotTester.truthy video_file) eqn:Htruthy.
    + destruct (IH (S i) total (successful ++ [(dataset, video_file)])
                  failed w1 Hw1)
        as (recorded & not_recorded & w' & t & Hloop & Hw' & Hperm & Hall).
      rewrite Hloop.
      exists ((dataset, video_file) :: recorded), not_recorded, w'.
      eexists. rewrite <- app_assoc in *. cbn [app].
      split; [reflexivity | split; [exact Hw' | split]].
      * cbn. now constructor.
      * constructor; [exact Htruthy | exact Hall].
    + destruct (IH (S i) total successful (failed ++ [dataset]) w1 Hw1)
        as (recorded & not_recorded & w' & t & Hloop & Hw' & Hperm & Hall).
      rewrite Hloop.
      exists recorded, (dataset :: not_recorded), w'.
      eexists. rewrite <- app_assoc in *. cbn [app].
      split; [reflexivity | split; [exact Hw' | split; [| exact Hall]]].
      rewrite <- Permutation_middle. now constructor.
Qed.

(** X14: when the try blocks raise only exceptions derived from Exception,
    the loop of g1_dance_recorder.main runs to the end of the list and
    accounts for every dataset exactly once: the recorded datasets
    together with the failed ones are a rearrangement of the list, and a
    dataset is counted as recorded only with a true (non-empty) video
    file name. *)
Theorem dance_loop_accounts_for_every_dataset (datasets : list pystr)
    (w : world) :
  raises_only_Exception w ->
  exists successful_recordings failed_recordings w' t,
    record_all try_block 1 (length datasets) datasets [] [] w
    = (Ok (successful_recordings, failed_recordings), w', t)
    /\ map fst successful_recordings ++ failed_recordings ≡ₚ datasets
    /\ (length successful_recordings + length failed_recordings
        = length datasets)%nat
    /\ Forall (fun entry => RobotTester.truthy entry.2 = true)
              successful_recordings.
Proof.
  intros Hw.
  destruct (record_all_run datasets 1 (length datasets) [] [] w Hw)
    as (s & f & w' & t & Hrun & _ & Hperm & Hall).
  exists s, f, w', t. split; [exact Hrun | split; [exact Hperm |]].
  split; [| exact Hall].
  apply Permutation_length in Hperm.
  rewrite length_app, length_map in Hperm. exact Hperm.
Qed.

End DanceRecorderMainFacts.

Lemma dance_loop_accounts_for_every_dataset_witness :
  exists successful_recordings failed_recordings w' t,
    DanceRecorderMain.record_all
      (fun dataset =>
         _ ← call (Make (u "UnitreeG1") [dataset] None);
         mret (VStr (u "G1_Dance_Videos/" ++ dataset ++ u "_dance.mp4")))
      1 (length DanceRecorderMain.dance_datasets)
      DanceRecorderMain.dance_datasets [] []
      [Returns []; Raises (RuntimeError (u "404"))]
    = (Ok (successful_recordings, failed_recordings), w', t)
    /\ map fst successful_recordings ++ failed_recordings
       ≡ₚ DanceRecorderMain.dance_datasets
    /\ (length successful_recordings + length failed_recordings
        = length DanceRecorderMain.dance_datasets)%nat
    /\ Forall (fun entry => RobotTester.truthy entry.2 = true)
              successful_recordings.
Proof.
  apply (dance_loop_accounts_for_every_dataset
           (fun dataset =>
              _ ← call (Make (u "UnitreeG1") [dataset] None);
              mret (VStr (u "G1_Dance_Videos/" ++ dataset ++ u "_dance.mp4")))).
  - intros dataset. apply sound_bind; [now apply sound_call |].
    intros shown. apply sound_ret.
  - repeat constructor.
Defined.

(* --------------------------------------------------------------------- *)
(** ** The menu of the archived slow motion viewer                         *)
(* --------------------------------------------------------------------- *)

Section SlowMotionMenuFacts.
Import SlowMotionMenu.





(** The menu the script really prints. *)
Example menu_of_the_script :
  select default_datasets lafan1_datasets 7
  = Ok (PlayLafan1 (u "walk1_subject1") (u "Human walking capture 1"))
  /\ select default_datasets lafan1_datasets 11 = Ok PlayAll
  /\ select default_datasets lafan1_datasets 0 = Ok InvalidChoice
  /\ select default_datasets lafan1_datasets (-1) = Ok InvalidChoice.
Proof. repeat split. Qed.

End SlowMotionMenuFacts.

(* --------------------------------------------------------------------- *)
(** ** Pauses between the demonstrations of lesson_1_3                     *)
(* --------------------------------------------------------------------- *)

Section Lesson13PacingFacts.
Import Lesson13 Lesson13Pacing.






End Lesson13PacingFacts.
